(** * bioconda_utils.bot.events: webhook handlers of the bioconda bot

    A shallow embedding of [bioconda_utils/bot/events.py] and the
    properties of its three handlers: the comment command extractor
    ([comment_created]), the check-suite handler and the check-run
    handler with its initiation protocol.

    Conventions of the embedding.
    - Python [str] values are Rocq [string]s: text whose code points are
      below 256 (Latin-1).  [lower], [split], [splitlines] and the
      case-insensitive regular expression are the Python ones on that
      range.
    - Webhook payloads and gateway answers are dynamically typed JSON
      documents ([json]); every subscript, truth test and comparison the
      source performs is written out with the exception it raises.
    - A handler is a computation in the monad [M]: it produces the list
      of calls made to the collaborators (API gateway, lint scheduler,
      command router) and ends by returning or by raising. *)

From Stdlib Require Import String Ascii List ZArith NArith Bool Lia.
Import ListNotations.
Local Open Scope string_scope.
Local Open Scope list_scope.

(** ** Python strings *)

Module PyStr.

Definition code (c : ascii) : N := N_of_ascii c.

Definition between (lo hi n : N) : bool := ((lo <=? n) && (n <=? hi))%N.

(** [str.isspace] for one character: TAB..CR, FS..US, SPACE, NEL, NBSP. *)
Definition isspace (c : ascii) : bool :=
  let n := code c in
  between 9 13 n || between 28 31 n || (n =? 32)%N || (n =? 133)%N || (n =? 160)%N.

(** The line boundaries of [str.splitlines]: LF, VT, FF, CR, FS, GS, RS
    and NEL (CR LF counts once, see [splitlines_from]). *)
Definition is_linebreak (c : ascii) : bool :=
  let n := code c in
  between 10 13 n || between 28 30 n || (n =? 133)%N.

(** [str.lower] for one character: A..Z and the Latin-1 capitals
    (all of 0xC0..0xDE but the multiplication sign 0xD7). *)
Definition lower_char (c : ascii) : ascii :=
  let n := code c in
  if between 65 90 n || (between 192 222 n && negb (n =? 215)%N)
  then ascii_of_N (n + 32)
  else c.

Fixpoint lower (s : string) : string :=
  match s with
  | EmptyString => EmptyString
  | String c s' => String (lower_char c) (lower s')
  end.

Definition is_empty (s : string) : bool :=
  match s with EmptyString => true | _ => false end.

(** [cur] is the token being read, [s] what is left of the text. *)
Fixpoint split_from (cur s : string) : list string :=
  match s with
  | EmptyString => if is_empty cur then [] else [cur]
  | String c s' =>
      if isspace c
      then (if is_empty cur then split_from "" s' else cur :: split_from "" s')
      else split_from (cur ++ String c "") s'
  end.

(** [s.split()]: the maximal runs of non-whitespace characters. *)
Definition split (s : string) : list string := split_from "" s.

(** [cur] is the line being read.  A line break closes the line, also an
    empty one; the end of the text closes only a line that has begun. *)
Fixpoint splitlines_from (cur s : string) : list string :=
  match s with
  | EmptyString => if is_empty cur then [] else [cur]
  | String c s' =>
      if is_linebreak c
      then
        match s' with
        | String c' s'' =>
            if ((code c =? 13) && (code c' =? 10))%N
            then cur :: splitlines_from "" s''
            else cur :: splitlines_from "" s'
        | EmptyString => cur :: splitlines_from "" s'
        end
      else splitlines_from (cur ++ String c "") s'
  end.

(** [s.splitlines()] *)
Definition splitlines (s : string) : list string := splitlines_from "" s.

(** [s.endswith(suf)]: some tail of [s] is [suf]. *)
Fixpoint endswith (s suf : string) : bool :=
  String.eqb s suf ||
  match s with
  | EmptyString => false
  | String _ s' => endswith s' suf
  end.

(** [s.split(sep)] for a one-character separator: every separator cuts,
    empty fields are kept. *)
Fixpoint split_on_from (sep : ascii) (cur s : string) : list string :=
  match s with
  | EmptyString => [cur]
  | String c s' =>
      if Ascii.eqb c sep
      then cur :: split_on_from sep "" s'
      else split_on_from sep (cur ++ String c "") s'
  end.

Definition split_on (sep : ascii) (s : string) : list string :=
  split_on_from sep "" s.

End PyStr.

(** ** The regular expression of the bot alias *)

Module Re.

(** The fragment of [re] syntax that [BOT_ALIAS_RE] is written in: a
    sequence of literal characters and optional one-character classes. *)
Inductive atom : Type :=
| Lit (c : ascii)
| OptClass (cs : list ascii).

Definition pattern := list atom.

Definition lits (s : string) : pattern := map Lit (list_ascii_of_string s).

(** How one pattern character meets one text character; under
    [re.IGNORECASE] both are compared lower-cased. *)
Definition char_eq (ignorecase : bool) (p c : ascii) : bool :=
  if ignorecase
  then Ascii.eqb (PyStr.lower_char p) (PyStr.lower_char c)
  else Ascii.eqb p c.

(** [pattern.match(s)]: the pattern matches a prefix of [s], starting at
    its first character.  The optional class is greedy: it first takes a
    character of the class, and on failure of what follows retries
    without it. *)
Fixpoint match_prefix (ignorecase : bool) (p : pattern) (s : string) : bool :=
  match p with
  | [] => true
  | Lit a :: p' =>
      match s with
      | String c s' => char_eq ignorecase a c && match_prefix ignorecase p' s'
      | EmptyString => false
      end
  | OptClass cs :: p' =>
      match s with
      | String c s' =>
          (existsb (fun a => char_eq ignorecase a c) cs
             && match_prefix ignorecase p' s')
          || match_prefix ignorecase p' s
      | EmptyString => match_prefix ignorecase p' s
      end
  end.

End Re.

(** [BOT_ALIAS_RE = re.compile(r'@bioconda[- ]?bot', re.IGNORECASE)] *)
Definition BOT_ALIAS_RE : Re.pattern :=
  Re.lits "@bioconda" ++ [Re.OptClass ["-"%char; " "%char]] ++ Re.lits "bot".

Definition BOT_ALIAS_RE_match (line : string) : bool :=
  Re.match_prefix true BOT_ALIAS_RE line.

(** ** Dynamically typed values and exceptions *)

(** The Python exceptions the handlers can end with.  [ApiError] stands
    for any error a collaborator raises (network failure, rejected
    request, scheduling failure). *)
Inductive exn : Type :=
| KeyError
| TypeError
| ValueError
| IndexError
| AttributeError
| ApiError.

Inductive Res (A : Type) : Type :=
| Ok (a : A)
| Raise (e : exn).
Arguments Ok {A} a.
Arguments Raise {A} e.

Definition res_bind {A B : Type} (r : Res A) (k : A -> Res B) : Res B :=
  match r with
  | Ok a => k a
  | Raise e => Raise e
  end.

Notation "'let?' x ':=' r 'in' k" := (res_bind r (fun x => k))
  (at level 10, x name, r at level 100, k at level 200).

(** A decoded JSON document: what a webhook delivers and what the API
    gateway answers.  Numbers are integers; JSON numbers with a fraction
    are outside the model. *)
#[warnings="-register-all"]
Inductive json : Type :=
| JNull
| JBool (b : bool)
| JInt (n : Z)
| JStr (s : string)
| JList (items : list json)
| JObj (fields : list (string * json)).

(** [bool(v)], the test behind [if not v]. *)
Definition truthy (v : json) : bool :=
  match v with
  | JNull => false
  | JBool b => b
  | JInt n => negb (n =? 0)%Z
  | JStr s => negb (PyStr.is_empty s)
  | JList [] => false
  | JList (_ :: _) => true
  | JObj [] => false
  | JObj (_ :: _) => true
  end.

Fixpoint assoc (k : string) (fields : list (string * json)) : option json :=
  match fields with
  | [] => None
  | (k', v) :: rest => if String.eqb k k' then Some v else assoc k rest
  end.

(** [v[k]] for a string key [k]. *)
Definition getitem (v : json) (k : string) : Res json :=
  match v with
  | JObj fields =>
      match assoc k fields with
      | Some x => Ok x
      | None => Raise KeyError
      end
  | _ => Raise TypeError
  end.

(** [v[i]] for a literal index [i >= 0]; a dict has no integer key. *)
Definition getitem_index (v : json) (i : nat) : Res json :=
  match v with
  | JList items =>
      match nth_error items i with
      | Some x => Ok x
      | None => Raise IndexError
      end
  | JStr s =>
      match String.get i s with
      | Some c => Ok (JStr (String c ""))
      | None => Raise IndexError
      end
  | JObj _ => Raise KeyError
  | _ => Raise TypeError
  end.

(** [v[k1][k2]...] *)
Fixpoint getpath (v : json) (keys : list string) : Res json :=
  match keys with
  | [] => Ok v
  | k :: ks => let? x := getitem v k in getpath x ks
  end.

(** [for item in v]: the items of a list, the characters of a string,
    the keys of a dict. *)
Definition py_iter (v : json) : Res (list json) :=
  match v with
  | JList items => Ok items
  | JStr s => Ok (map (fun c => JStr (String c "")) (list_ascii_of_string s))
  | JObj fields => Ok (map (fun kv => JStr (fst kv)) fields)
  | _ => Raise TypeError
  end.

(** [v == s] for a string literal [s]. *)
Definition py_eq_str (v : json) (s : string) : bool :=
  match v with
  | JStr x => String.eqb x s
  | _ => false
  end.

(** [v in [s1, s2, ...]] for string literals. *)
Definition py_in_strs (v : json) (l : list string) : bool :=
  existsb (py_eq_str v) l.

(** [v != n] for an integer [n]; a bool compares as 0 or 1. *)
Definition py_ne_int (v : json) (n : Z) : bool :=
  match v with
  | JInt x => negb (x =? n)%Z
  | JBool b => negb ((if b then 1 else 0) =? n)%Z
  | _ => true
  end.

(** [v.splitlines()]; only [str] has the method. *)
Definition py_splitlines (v : json) : Res (list string) :=
  match v with
  | JStr s => Ok (PyStr.splitlines s)
  | _ => Raise AttributeError
  end.

(** ** Collaborators *)

(** Modelled from the spec: [githubhandler.CheckRunStatus], imported by
    the module; "status in {queued, in_progress, completed}". *)
Inductive CheckRunStatus : Type :=
| queued
| in_progress
| completed.

(** Modelled from the spec: [githubhandler.CheckRunConclusion], imported
    by the module; "conclusion in {neutral, success, failure, ...}". *)
Inductive CheckRunConclusion : Type :=
| neutral
| success
| failure.

(** Modelled from the spec: [tasks.PRInfo], imported by the module;
    the fields in the order the source passes them. *)
Record PRInfo : Type := mkPRInfo {
  installation_id : json;
  owner_login : json;
  repo_name : json;
  ref : json;
  recipe_paths : list string;
  pr_number : json
}.

(** The value of one keyword argument at a call site; a [format]
    expression is kept as written. *)
Inductive kwarg : Type :=
| KwStatus (s : CheckRunStatus)
| KwConclusion (c : CheckRunConclusion)
| KwStr (s : string)
| KwFormat (template : string) (arg : json).

Definition kwargs := list (string * kwarg).

Fixpoint kwarg_get (k : string) (kw : kwargs) : option kwarg :=
  match kw with
  | [] => None
  | (k', v) :: rest => if String.eqb k k' then Some v else kwarg_get k rest
  end.

(** One call made to a collaborator, with the arguments as passed. *)
Inductive Call : Type :=
| create_check_run_call (name : string) (head_sha : json)
| modify_check_run_call (number : json) (kw : kwargs)
| get_prs_call (number : Z)
| get_pr_modified_files_call (number : json)
| schedule_call (pr_info : PRInfo) (head_sha check_run_number : json)
| dispatch_call (cmd : string) (args : list string).

(** The API gateway [ghapi] as the handlers see it: what each of its
    operations answers (or raises) for given arguments. *)
Record Gateway : Type := mkGateway {
  gw_create_check_run : string -> json -> Res json;
  gw_modify_check_run : json -> kwargs -> Res unit;
  gw_get_prs : Z -> Res json;
  gw_get_pr_modified_files : json -> Res json
}.

(** One webhook delivery: [event.event] and [event.data]. *)
Record Event : Type := mkEvent {
  event : string;
  data : json
}.

Fixpoint walk (keys : list string) (v : json) : option json :=
  match keys with
  | [] => Some v
  | k :: ks =>
      match v with
      | JObj fields =>
          match assoc k fields with
          | Some x => walk ks x
          | None => None
          end
      | _ => None
      end
  end.

(** Modelled from the spec: [Event.get(path)], the path-addressable
    lookup of the envelope, defined outside this module; "Lookup by path
    fails with a MissingField condition when an intermediate key is
    absent".  The handlers catch that condition as [KeyError]. *)
Definition Event_get (e : Event) (path : string) : Res json :=
  match walk (PyStr.split_on "/" path) (data e) with
  | Some v => Ok v
  | None => Raise KeyError
  end.

(** Modelled from the spec: [Event.get(path, altvalue)], the same lookup
    answering [altvalue] where the path is missing. *)
Definition Event_get_default (e : Event) (path : string) (alt : json) : json :=
  match walk (PyStr.split_on "/" path) (data e) with
  | Some v => v
  | None => alt
  end.

(** ** The handler monad: calls made so far, then a value or an exception *)

Definition M (A : Type) : Type := list Call * Res A.

Definition ret {A : Type} (a : A) : M A := ([], Ok a).

Definition lift {A : Type} (r : Res A) : M A := ([], r).

Definition bind {A B : Type} (m : M A) (k : A -> M B) : M B :=
  match snd m with
  | Ok a => (fst m ++ fst (k a), snd (k a))
  | Raise e => (fst m, Raise e)
  end.

(** A call to a collaborator: recorded, then answered. *)
Definition call {A : Type} (c : Call) (answer : Res A) : M A := ([c], answer).

(** [try: m  except KeyError: handler] *)
Definition except_KeyError {A : Type} (m handler : M A) : M A :=
  match snd m with
  | Raise KeyError => (fst m ++ fst handler, snd handler)
  | _ => m
  end.

Notation "x <- m ;; k" := (bind m (fun x => k))
  (at level 61, m at next level, right associativity).
Notation "m ;;; k" := (bind m (fun _ => k))
  (at level 61, right associativity).

Definition trace {A : Type} (m : M A) : list Call := fst m.
Definition outcome {A : Type} (m : M A) : Res A := snd m.

(** ** The handlers of [events.py] *)

(** What the module takes from outside itself: its imports from the
    sibling modules and one builtin. *)
Record Env : Type := mkEnv {
  (** [int(APP_ID)], the bot's application id from [config]. *)
  APP_ID : Z;
  (** Python's [int(s)] on text, which the handlers only pass through. *)
  int_of_str : string -> Res Z;
  (** [command_routes.dispatch(cmd, event, ghapi, *args)], the command
      registry: what dispatching one command answers. *)
  command_routes_dispatch :
    string -> Event -> Gateway -> list string -> Res unit;
  (** [lint_check.schedule(pr_info, head_sha, check_run_number, ghapi=ghapi)],
      the lint scheduler. *)
  lint_check_schedule : PRInfo -> json -> json -> Gateway -> Res unit
}.

Section Bot.

Variable env : Env.

(** [int(v)] *)
Definition py_int (v : json) : Res Z :=
  match v with
  | JInt n => Ok n
  | JBool b => Ok (if b then 1 else 0)%Z
  | JStr s => int_of_str env s
  | _ => Raise TypeError
  end.

(** The element expression of the comprehension:
    [line.lower().split()[1:]] *)
Definition command_of_line (line : string) : list string :=
  tl (PyStr.split (PyStr.lower line)).

(** [[line.lower().split()[1:] for line in lines if BOT_ALIAS_RE.match(line)]] *)
Definition commands_of_lines (lines : list string) : list (list string) :=
  map command_of_line (filter BOT_ALIAS_RE_match lines).

(** The list [commands] built from the comment body. *)
Definition commands (body : string) : list (list string) :=
  commands_of_lines (PyStr.splitlines body).

(** The target [cmd, *args] of the loop: the first element and the list
    of the others; an empty element has no value for [cmd]. *)
Definition unpack (c : list string) : Res (string * list string) :=
  match c with
  | [] => Raise ValueError
  | cmd :: args => Ok (cmd, args)
  end.

(** [for cmd, *args in commands: await command_routes.dispatch(...)]:
    each element is unpacked when the loop reaches it. *)
Fixpoint dispatch_commands (event : Event) (ghapi : Gateway)
    (cmds : list (list string)) : M unit :=
  match cmds with
  | [] => ret tt
  | c :: rest =>
      target <- lift (unpack c) ;;
      call (dispatch_call (fst target) (snd target))
           (command_routes_dispatch env (fst target) event ghapi (snd target)) ;;;
      dispatch_commands event ghapi rest
  end.

Definition comment_created (event : Event) (ghapi : Gateway) : M unit :=
  body <- lift (getpath (data event) ["comment"; "body"]) ;;
  lines <- lift (py_splitlines body) ;;
  dispatch_commands event ghapi (commands_of_lines lines).

Definition demo_using_status (_event : Event) (_ghapi : Gateway) : M unit :=
  ret tt.

Definition create_check_run (event : Event) (ghapi : Gateway) : M unit :=
  head_sha <- except_KeyError
                (lift (Event_get event "check_suite/head_sha"))
                (lift (Event_get event "check_run/head_sha")) ;;
  _check_run_number <-
    call (create_check_run_call "Linting Recipe(s)" head_sha)
         (gw_create_check_run ghapi "Linting Recipe(s)" head_sha) ;;
  ret tt.

(** [[item['filename'] for item in files
      if item['filename'].endswith('/meta.yaml')]] *)
Fixpoint recipes_of (items : list json) : Res (list string) :=
  match items with
  | [] => Ok []
  | item :: rest =>
      let? filename := getitem item "filename" in
      match filename with
      | JStr s =>
          let? recipes := recipes_of rest in
          Ok (if PyStr.endswith s "/meta.yaml" then s :: recipes else recipes)
      | _ => Raise AttributeError   (* only [str] has [endswith] *)
      end
  end.

(** [ghapi.modify_check_run(number, **kw)]: the call is recorded with
    the keywords as the call site spells them; whether it returns or
    raises is the gateway's answer.  (The source does not await it.) *)
Definition modify_check_run (ghapi : Gateway) (number : json) (kw : kwargs)
  : M unit :=
  call (modify_check_run_call number kw) (gw_modify_check_run ghapi number kw).

Definition initiate_check_run (event : Event) (ghapi : Gateway) : M unit :=
  check_run_number <- lift (Event_get event "check_run/id") ;;
  head_sha <- lift (Event_get event "check_run/head_sha") ;;
  prs <- lift (Event_get event "check_run/check_suite/pull_requests") ;;
  if negb (truthy prs) then
    modify_check_run ghapi check_run_number
      [("status", KwStatus completed);
       ("conclusion", KwConclusion neutral);
       ("output_title", KwStr "No PRs associated");
       ("outout_summary", KwStr "Merges commits are not linted")]
  else
    issue_number <- lift (let? pr0 := getitem_index prs 0 in getitem pr0 "number") ;;
    number <- lift (py_int issue_number) ;;
    pr <- call (get_prs_call number) (gw_get_prs ghapi number) ;;
    if negb (truthy pr) then
      modify_check_run ghapi check_run_number
        [("status", KwStatus completed);
         ("conclusion", KwConclusion neutral);
         ("output_title", KwStr "PR not found");
         ("outout_summary", KwFormat "PR {} not found?" issue_number)] ;;;
      (* logger.error("No PRs with number %s?", pr['number']) *)
      _number <- lift (getitem pr "number") ;;
      ret tt
    else
      files <- call (get_pr_modified_files_call issue_number)
                    (gw_get_pr_modified_files ghapi issue_number) ;;
      recipes <- lift (let? items := py_iter files in recipes_of items) ;;
      match recipes with
      | [] =>
          modify_check_run ghapi check_run_number
            [("status", KwStatus completed);
             ("conclusion", KwConclusion success);
             ("output_title", KwStr "No recipes modified by PR");
             ("output_summary", KwStr "No need to check anything.")]
      | _ :: _ =>
          user <- lift (getpath pr ["head"; "user"; "login"]) ;;
          repo <- lift (getpath pr ["head"; "repo"; "name"]) ;;
          ref <- lift (getpath pr ["head"; "ref"]) ;;
          installation <- lift (Event_get event "installation/id") ;;
          let pr_info := mkPRInfo installation user repo ref recipes issue_number in
          call (schedule_call pr_info head_sha check_run_number)
               (lint_check_schedule env pr_info head_sha check_run_number ghapi)
      end.

Definition handle_check_suite (event : Event) (ghapi : Gateway) : M unit :=
  action <- lift (Event_get event "action") ;;
  if negb (py_in_strs action ["requested"; "rerequested"]) then ret tt
  else
    let prs := Event_get_default event "check_suite/pull_requests" (JList []) in
    if negb (truthy prs) then ret tt
    else create_check_run event ghapi.

Definition handle_check_run (event : Event) (ghapi : Gateway) : M unit :=
  app_id <- lift (Event_get event "check_run/app/id") ;;
  if py_ne_int app_id (APP_ID env) then ret tt
  else
    action <- lift (Event_get event "action") ;;
    if py_eq_str action "rerequested" then create_check_run event ghapi
    else if py_eq_str action "created" then initiate_check_run event ghapi
    else ret tt.

(** The registrations made by the [@event_routes.register] decorators,
    and the router's dispatch on them: [issue_comment] is registered
    with [action="created"], the other three for every action. *)
Definition event_routes_dispatch (e : Event) (ghapi : Gateway) : M unit :=
  if String.eqb (event e) "issue_comment" then
    match getitem (data e) "action" with
    | Ok action =>
        if py_eq_str action "created" then comment_created e ghapi else ret tt
    | Raise _ => ret tt
    end
  else if String.eqb (event e) "status" then demo_using_status e ghapi
  else if String.eqb (event e) "check_suite" then handle_check_suite e ghapi
  else if String.eqb (event e) "check_run" then handle_check_run e ghapi
  else ret tt.

End Bot.

(** ** Vocabulary of the properties *)

Definition is_create (c : Call) : bool :=
  match c with create_check_run_call _ _ => true | _ => false end.

Definition is_modify (c : Call) : bool :=
  match c with modify_check_run_call _ _ => true | _ => false end.


Definition is_dispatch (c : Call) : bool :=
  match c with dispatch_call _ _ => true | _ => false end.

(** The [dispatch] call the loop makes for a command and its arguments. *)
Definition dispatch_call_of (c : list string) : Call :=
  dispatch_call (hd "" c) (tl c).

(** The keyword arguments of the three [modify_check_run] calls, as the
    source spells them. *)
Definition no_prs_kwargs : kwargs :=
  [("status", KwStatus completed);
   ("conclusion", KwConclusion neutral);
   ("output_title", KwStr "No PRs associated");
   ("outout_summary", KwStr "Merges commits are not linted")].

Definition pr_not_found_kwargs (issue_number : json) : kwargs :=
  [("status", KwStatus completed);
   ("conclusion", KwConclusion neutral);
   ("output_title", KwStr "PR not found");
   ("outout_summary", KwFormat "PR {} not found?" issue_number)].

Definition no_recipes_kwargs : kwargs :=
  [("status", KwStatus completed);
   ("conclusion", KwConclusion success);
   ("output_title", KwStr "No recipes modified by PR");
   ("output_summary", KwStr "No need to check anything.")].


(** What the caller of [create_check_run] sees of the gateway's answer. *)
Definition creation_outcome (answer : Res json) : Res unit :=
  match answer with
  | Ok _ => Ok tt
  | Raise x => Raise x
  end.

(** The test of the recipe filter. *)
Definition is_manifest (filename : string) : bool :=
  PyStr.endswith filename "/meta.yaml".

(** [item] is an entry of the changed-files list for the path [fn]. *)
Definition has_filename (item : json) (fn : string) : Prop :=
  getitem item "filename" = Ok (JStr fn).

(** The line feed, and a text of several lines. *)
Definition LF : string := String (ascii_of_nat 10) "".

Definition unlines (lines : list string) : string := String.concat LF lines.

(** The line has a token that begins at its first character. *)
Definition starts_with_token (line : string) : bool :=
  match line with
  | String c _ => negb (PyStr.isspace c)
  | EmptyString => false
  end.

(** The pattern is written in lower case: lower-casing changes none of
    its characters. *)
Definition lower_closed (p : Re.pattern) : bool :=
  forallb (fun a =>
             match a with
             | Re.Lit c => Ascii.eqb (PyStr.lower_char c) c
             | Re.OptClass cs =>
                 forallb (fun c => Ascii.eqb (PyStr.lower_char c) c) cs
             end) p.

(** No character of the text is whitespace. *)
Fixpoint no_space (s : string) : bool :=
  match s with
  | EmptyString => true
  | String c s' => negb (PyStr.isspace c) && no_space s'
  end.

(** A token as a command handler receives it: not empty, free of
    whitespace, in lower case. *)
Definition clean_token (tok : string) : Prop :=
  PyStr.is_empty tok = false /\ no_space tok = true /\ PyStr.lower tok = tok.

(** ** Sample deliveries *)

(** Collaborators that accept every request. *)
Definition accepting_env (app_id : Z) : Env :=
  mkEnv app_id (fun _ => Raise ValueError)
        (fun _ _ _ _ => Ok tt) (fun _ _ _ _ => Ok tt).

(** Collaborators of which the command registry fails on the command
    [bad] and accepts every other one. *)
Definition rejecting_env (app_id : Z) (bad : string) : Env :=
  mkEnv app_id (fun _ => Raise ValueError)
        (fun cmd _ _ _ => if String.eqb cmd bad then Raise ApiError else Ok tt)
        (fun _ _ _ _ => Ok tt).

(** A gateway that creates run 1, knows the pull request [pr] under every
    number and reports [files] as its changed files. *)
Definition sample_gateway (pr files : json) : Gateway :=
  mkGateway (fun _ _ => Ok (JInt 1)) (fun _ _ => Ok tt)
            (fun _ => Ok pr) (fun _ => Ok files).

Definition comment_event (body : string) : Event :=
  mkEvent "issue_comment"
    (JObj [("action", JStr "created");
           ("comment", JObj [("body", JStr body)])]).

Definition check_suite_event (action : string) (prs : list json) : Event :=
  mkEvent "check_suite"
    (JObj [("action", JStr action);
           ("installation", JObj [("id", JInt 7)]);
           ("check_suite", JObj [("head_sha", JStr "abc123");
                                 ("pull_requests", JList prs)])]).

Definition check_run_event (action : string) (app_id : Z) (prs : list json)
  : Event :=
  mkEvent "check_run"
    (JObj [("action", JStr action);
           ("installation", JObj [("id", JInt 7)]);
           ("check_run",
            JObj [("id", JInt 42);
                  ("head_sha", JStr "abc123");
                  ("app", JObj [("id", JInt app_id)]);
                  ("check_suite", JObj [("pull_requests", JList prs)])])]).

Definition sample_pr_ref : json := JObj [("number", JInt 5)].

Definition sample_pr : json :=
  JObj [("number", JInt 5);
        ("head", JObj [("user", JObj [("login", JStr "alice")]);
                       ("repo", JObj [("name", JStr "bioconda-recipes")]);
                       ("ref", JStr "add-foo")])].

Definition file_item (fn : string) : json :=
  JObj [("filename", JStr fn); ("status", JStr "modified")].

(** A pull request whose fork has been deleted: no head repository. *)
Definition orphan_pr : json :=
  JObj [("number", JInt 5);
        ("head", JObj [("user", JObj [("login", JStr "alice")]);
                       ("repo", JNull);
                       ("ref", JStr "add-foo")])].

(** A requested check suite that names no head SHA. *)
Definition headless_suite_event : Event :=
  mkEvent "check_suite"
    (JObj [("action", JStr "requested");
           ("check_suite", JObj [("pull_requests", JList [sample_pr_ref])])]).

(** A created check run of application [app_id] that names no id. *)
Definition nameless_run_event (app_id : Z) : Event :=
  mkEvent "check_run"
    (JObj [("action", JStr "created");
           ("check_run", JObj [("head_sha", JStr "abc123");
                               ("app", JObj [("id", JInt app_id)])])]).

(** A gateway whose every operation fails. *)
Definition failing_gateway : Gateway :=
  mkGateway (fun _ _ => Raise ApiError) (fun _ _ => Raise ApiError)
            (fun _ => Raise ApiError) (fun _ => Raise ApiError).

(** A diff without a recipe manifest. *)
Definition other_files : json :=
  JList [file_item "recipes/foo/build.sh"; file_item "README.md"].

(** The diff of the scenario: a recipe manifest and a build script. *)
Definition sample_files : json :=
  JList [file_item "recipes/foo/meta.yaml"; file_item "recipes/foo/build.sh"].

Section Vocabulary.

Variable env : Env.

(** The event the platform delivers because of a request of the bot: a
    created check run comes back as [check_run] / [created], carrying
    the bot's application id and the head SHA of the request; a check
    run modified to [completed] comes back as [check_run] / [completed].
    Queries, scheduling and command dispatch deliver nothing. *)
Inductive caused_by : Call -> Event -> Prop :=
| caused_created (name : string) (head_sha : json) (e : Event) :
    event e = "check_run" ->
    Event_get e "action" = Ok (JStr "created") ->
    Event_get e "check_run/app/id" = Ok (JInt (APP_ID env)) ->
    Event_get e "check_run/head_sha" = Ok head_sha ->
    caused_by (create_check_run_call name head_sha) e
| caused_completed (number : json) (kw : kwargs) (e : Event) :
    event e = "check_run" ->
    Event_get e "action" = Ok (JStr "completed") ->
    kwarg_get "status" kw = Some (KwStatus completed) ->
    caused_by (modify_check_run_call number kw) e.

(** A causal event chain: the events handled one after the other, each
    with the calls its handling made, where every event after the first
    is caused by a call made while handling the one before it.  The
    gateway may answer differently at every step. *)
Inductive causal_chain : list (Event * list Call) -> Prop :=
| chain_last (e : Event) (ghapi : Gateway) :
    causal_chain [(e, trace (event_routes_dispatch env e ghapi))]
| chain_next (e : Event) (ghapi : Gateway) (c : Call)
             (e' : Event) (t' : list Call) (rest : list (Event * list Call)) :
    In c (trace (event_routes_dispatch env e ghapi)) ->
    caused_by c e' ->
    causal_chain ((e', t') :: rest) ->
    causal_chain ((e, trace (event_routes_dispatch env e ghapi)) :: (e', t') :: rest).

(** All the calls of a chain, in order. *)
Definition chain_calls (steps : list (Event * list Call)) : list Call :=
  concat (map snd steps).

(** The element [c] of [commands] unpacks, and its dispatch returns. *)
Definition dispatches_normally (e : Event) (ghapi : Gateway) (c : list string)
  : Prop :=
  exists cmd args,
    c = cmd :: args /\ command_routes_dispatch env cmd e ghapi args = Ok tt.

(** The event passes the application-identity guard. *)
Definition passes_guard (e : Event) : Prop :=
  exists app_id, Event_get e "check_run/app/id" = Ok app_id /\
                 py_ne_int app_id (APP_ID env) = false.

(** The event is one of those on which a check run may be created. *)
Definition creating_event (e : Event) : Prop :=
  (event e = "check_suite" /\
   (Event_get e "action" = Ok (JStr "requested") \/
    Event_get e "action" = Ok (JStr "rerequested")))
  \/
  (event e = "check_run" /\
   Event_get e "action" = Ok (JStr "rerequested") /\
   passes_guard e).

(** The event is one on which the handlers go on to create a check run:
    a requested or re-requested suite with pull requests, or a
    re-requested run of the bot's own. *)
Definition requests_creation (e : Event) : Prop :=
  (event e = "check_suite" /\
   (Event_get e "action" = Ok (JStr "requested") \/
    Event_get e "action" = Ok (JStr "rerequested")) /\
   truthy (Event_get_default e "check_suite/pull_requests" (JList [])) = true)
  \/
  (event e = "check_run" /\
   Event_get e "action" = Ok (JStr "rerequested") /\
   passes_guard e).

(** What the initiation protocol first reads from the event. *)
Definition check_run_payload (e : Event) (check_run_number head_sha prs : json)
  : Prop :=
  Event_get e "check_run/id" = Ok check_run_number /\
  Event_get e "check_run/head_sha" = Ok head_sha /\
  Event_get e "check_run/check_suite/pull_requests" = Ok prs.

(** [prs[0]['number']] is [issue_number]. *)
Definition first_pr_number (prs issue_number : json) : Prop :=
  (let? pr0 := getitem_index prs 0 in getitem pr0 "number") = Ok issue_number.

(** The gateway answers [pr] when asked for the pull request
    [int(issue_number)]. *)
Definition pr_lookup (ghapi : Gateway) (issue_number : json) (number : Z)
    (pr : json) : Prop :=
  py_int env issue_number = Ok number /\ gw_get_prs ghapi number = Ok pr.

(** The gateway reports a sequence of changed files with the paths
    [filenames], in that order. *)
Definition changed_files (ghapi : Gateway) (issue_number : json)
    (filenames : list string) : Prop :=
  exists files items,
    gw_get_pr_modified_files ghapi issue_number = Ok files /\
    py_iter files = Ok items /\
    Forall2 has_filename items filenames.

(** The head of the pull request names its user, repository and branch. *)
Definition pr_head (pr user repo ref : json) : Prop :=
  getpath pr ["head"; "user"; "login"] = Ok user /\
  getpath pr ["head"; "repo"; "name"] = Ok repo /\
  getpath pr ["head"; "ref"] = Ok ref.

(** The event is a [check_run] / [created] delivery of the bot's own. *)
Definition initiating_event (e : Event) : Prop :=
  event e = "check_run" /\
  Event_get e "action" = Ok (JStr "created") /\
  passes_guard e.

End Vocabulary.

(** A chain of three deliveries: a requested check suite, the created
    check run that comes back, and its completion. *)
Definition sample_chain : list (Event * list Call) :=
  let env := accepting_env 1 in
  let ghapi := sample_gateway sample_pr sample_files in
  let suite := check_suite_event "requested" [sample_pr_ref] in
  let created := check_run_event "created" 1 [] in
  let done := check_run_event "completed" 1 [] in
  [(suite, trace (event_routes_dispatch env suite ghapi));
   (created, trace (event_routes_dispatch env created ghapi));
   (done, trace (event_routes_dispatch env done ghapi))].

(** * Properties *)

(** ** Strings *)

Module PyStrFacts.
Import PyStr.
Local Open Scope string_scope.

Ltac by_cases_on_char c :=
  destruct c as [[] [] [] [] [] [] [] []]; vm_compute; reflexivity.

Lemma isspace_lower_char (c : ascii) : isspace (lower_char c) = isspace c.
Proof. by_cases_on_char c. Qed.

Lemma lower_app (s t : string) : lower (s ++ t) = lower s ++ lower t.
Proof. induction s as [|c s IH]; simpl; [reflexivity | now rewrite IH]. Qed.

Lemma is_empty_lower (s : string) : is_empty (lower s) = is_empty s.
Proof. now destruct s. Qed.

Lemma split_from_lower (s cur : string) :
  split_from (lower cur) (lower s) = map lower (split_from cur s).
Proof.
  revert cur; induction s as [|c s IH]; intros cur; simpl.
  - rewrite is_empty_lower; now destruct (is_empty cur).
  - rewrite isspace_lower_char, is_empty_lower.
    destruct (isspace c).
    + destruct (is_empty cur); simpl; [apply (IH "") | f_equal; apply (IH "")].
    + rewrite <- IH, lower_app; reflexivity.
Qed.

(** Lower-casing a line and cutting it into tokens commute. *)
Lemma split_lower (s : string) : split (lower s) = map lower (split s).
Proof. apply (split_from_lower s ""). Qed.

Lemma app_assoc_string (s t u : string) : (s ++ t) ++ u = s ++ t ++ u.
Proof. induction s as [|c s IH]; simpl; [reflexivity | now rewrite IH]. Qed.

Lemma is_empty_app_char (s : string) (c : ascii) :
  is_empty (s ++ String c "") = false.
Proof. now destruct s. Qed.

(** The first token of a text is a prefix of what has been read and what
    is left, once a token has begun. *)
Lemma split_from_first_prefix (s cur t : string) (ts : list string) :
  is_empty cur = false ->
  split_from cur s = t :: ts ->
  exists rest, cur ++ s = t ++ rest.
Proof.
  revert cur; induction s as [|c s IH]; intros cur Hcur H; simpl in H.
  - rewrite Hcur in H. injection H as <- _. now exists "".
  - destruct (isspace c).
    + rewrite Hcur in H. injection H as <- _. now exists (String c s).
    + apply IH in H; [|apply is_empty_app_char].
      destruct H as [rest H]. exists rest.
      rewrite <- H, app_assoc_string. reflexivity.
Qed.

Lemma split_first_prefix (c : ascii) (s t : string) (ts : list string) :
  isspace c = false ->
  split (String c s) = t :: ts ->
  exists rest, String c s = t ++ rest.
Proof.
  unfold split; simpl; intros -> H.
  now apply split_from_first_prefix in H.
Qed.

Lemma endswith_spec (s suf : string) :
  endswith s suf = true <-> exists p, s = p ++ suf.
Proof.
  induction s as [|c s IH]; cbn [endswith].
  - rewrite orb_false_r, String.eqb_eq. split.
    + intros ->. now exists "".
    + intros [[|d p] H]; simpl in H; [easy | discriminate].
  - rewrite orb_true_iff, String.eqb_eq, IH. split.
    + intros [H | [p ->]]; [now exists "" | now exists (String c p)].
    + intros [[|d p] H]; simpl in H; [now left |].
      injection H as _ ->. right. now exists p.
Qed.

End PyStrFacts.

Module ReFacts.
Import Re.

(** A match of a prefix is not undone by text appended after it. *)
Lemma match_prefix_app (ic : bool) (p : pattern) :
  forall s t, match_prefix ic p s = true -> match_prefix ic p (s ++ t) = true.
Proof.
  induction p as [|[a|cs] p IH]; intros s t H; simpl in *.
  - reflexivity.
  - destruct s as [|c s]; [discriminate|]. simpl.
    apply andb_true_iff in H as [-> H]. now apply IH.
  - destruct s as [|c s]; simpl.
    + specialize (IH "" t H). simpl in IH.
      destruct t as [|c t]; [exact H|]. rewrite IH. apply orb_true_r.
    + apply orb_true_iff in H as [H | H].
      * apply andb_true_iff in H as [-> H]. now rewrite (IH s t H).
      * specialize (IH (String c s) t H). simpl in IH. rewrite IH.
        apply orb_true_r.
Qed.

End ReFacts.

(** ** The handler monad *)

Lemma bind_lift_ok {A B : Type} (a : A) (k : A -> M B) :
  bind (lift (Ok a)) k = k a.
Proof. unfold bind, lift; simpl. now destruct (k a). Qed.

Lemma bind_lift_raise {A B : Type} (e : exn) (k : A -> M B) :
  bind (lift (Raise e)) k = ([], Raise e).
Proof. reflexivity. Qed.

Lemma bind_call_ok {A B : Type} (c : Call) (a : A) (k : A -> M B) :
  bind (call c (Ok a)) k = (c :: fst (k a), snd (k a)).
Proof. reflexivity. Qed.

Lemma bind_call_raise {A B : Type} (c : Call) (e : exn) (k : A -> M B) :
  bind (call c (Raise e)) k = ([c], Raise e).
Proof. reflexivity. Qed.

(** ** Commands in comments *)

Section CommentCommands.

Variable env : Env.

Lemma commands_of_lines_app (l1 l2 : list string) :
  commands_of_lines (l1 ++ l2) = commands_of_lines l1 ++ commands_of_lines l2.
Proof. unfold commands_of_lines. now rewrite filter_app, map_app. Qed.

(** The element the comprehension builds for a line: its tokens but the
    first, lower-cased. *)
Lemma command_of_line_tokens (line : string) :
  command_of_line line = map PyStr.lower (tl (PyStr.split line)).
Proof.
  unfold command_of_line. rewrite PyStrFacts.split_lower.
  now destruct (PyStr.split line).
Qed.

(** A line whose first token begins the line and matches the alias
    matches the alias itself. *)
Lemma alias_token_line_matches (line t0 : string) (rest : list string) :
  starts_with_token line = true ->
  PyStr.split line = t0 :: rest ->
  BOT_ALIAS_RE_match t0 = true ->
  BOT_ALIAS_RE_match line = true.
Proof.
  intros Hstart Hsplit Ht0.
  destruct line as [|c s]; [discriminate|]. simpl in Hstart.
  apply negb_true_iff in Hstart.
  destruct (PyStrFacts.split_first_prefix c s t0 rest Hstart Hsplit) as [r ->].
  now apply ReFacts.match_prefix_app.
Qed.

Lemma dispatch_commands_until_empty (e : Event) (ghapi : Gateway)
    (before after : list (list string)) :
  Forall (dispatches_normally env e ghapi) before ->
  dispatch_commands env e ghapi (before ++ [] :: after)
  = (map dispatch_call_of before, Raise ValueError).
Proof.
  induction 1 as [|c cs (cmd & args & -> & Hok) _ IH]; simpl.
  - reflexivity.
  - rewrite bind_lift_ok. simpl. rewrite Hok, bind_call_ok, IH. reflexivity.
Qed.

(** C3 (as amended).  For every comment line that begins with its first
    token, where that token matches the bot alias (case-insensitively,
    with a hyphen or no separator between the two name components; a
    token holds no space), the line is taken as a command line, the
    command name is the second token lower-cased and the positional
    arguments are the remaining tokens, lower-cased as well. *)
Theorem alias_line_command (line t0 cmd : string) (args : list string) :
  starts_with_token line = true ->
  PyStr.split line = t0 :: cmd :: args ->
  BOT_ALIAS_RE_match t0 = true ->
  map unpack (commands_of_lines [line])
  = [Ok (PyStr.lower cmd, map PyStr.lower args)].
Proof.
  intros Hstart Hsplit Ht0.
  unfold commands_of_lines. simpl.
  rewrite (alias_token_line_matches line t0 _ Hstart Hsplit Ht0). simpl.
  rewrite command_of_line_tokens, Hsplit. reflexivity.
Qed.

(** C7.  Extraction is anchored at the start of the line and keeps the
    order of the comment: ["@BioConda-Bot lint retry"] gives the command
    [("lint", ["retry"])], ["see @bioconda-bot for help"] gives none, and
    the three-line comment gives [("please", [])] then [("merge", [])],
    its third line not matching; the commands of a text are those of its
    first lines followed by those of its last lines. *)
Theorem command_extraction_scenarios :
  map unpack (commands "@BioConda-Bot lint retry") = [Ok ("lint", ["retry"])]
  /\ commands "see @bioconda-bot for help" = []
  /\ map unpack
       (commands (unlines ["@bioconda-bot please"; "@bioconda-bot merge";
                           "hello @bioconda-bot"]))
     = [Ok ("please", []); Ok ("merge", [])]
  /\ BOT_ALIAS_RE_match "hello @bioconda-bot" = false
  /\ (forall l1 l2 : list string,
        commands_of_lines (l1 ++ l2)
        = commands_of_lines l1 ++ commands_of_lines l2).
Proof.
  repeat split; try (vm_compute; reflexivity).
  apply commands_of_lines_app.
Qed.

(** C8 (as amended).  For every comment with a line that matches the bot
    alias and has no token after the first, where the matching lines
    before it carry commands that dispatch normally, the handler
    dispatches those earlier commands in order, then raises the
    unpacking error on reaching that line; no command of a later line is
    dispatched. *)
Theorem alias_only_line_raises (e : Event) (ghapi : Gateway)
    (body : string) (before after : list string) (line t0 : string) :
  getpath (data e) ["comment"; "body"] = Ok (JStr body) ->
  PyStr.splitlines body = before ++ line :: after ->
  BOT_ALIAS_RE_match line = true ->
  PyStr.split line = [t0] ->
  Forall (dispatches_normally env e ghapi) (commands_of_lines before) ->
  comment_created env e ghapi
  = (map dispatch_call_of (commands_of_lines before), Raise ValueError).
Proof.
  intros Hbody Hlines Hmatch Hsplit Hbefore.
  unfold comment_created. rewrite Hbody, bind_lift_ok. simpl.
  rewrite bind_lift_ok, Hlines, commands_of_lines_app.
  replace (commands_of_lines (line :: after))
    with ([] :: commands_of_lines after).
  - now apply dispatch_commands_until_empty.
  - unfold commands_of_lines. simpl. rewrite Hmatch. simpl.
    now rewrite command_of_line_tokens, Hsplit.
Qed.

End CommentCommands.

Lemma alias_line_command_witness :
  map unpack (commands_of_lines ["@BioConda-Bot Lint Retry NOW"])
  = [Ok ("lint", ["retry"; "now"])].
Proof.
  apply (alias_line_command "@BioConda-Bot Lint Retry NOW"
           "@BioConda-Bot" "Lint" ["Retry"; "NOW"]);
    vm_compute; reflexivity.
Defined.

(** C3, as stated, fails: the first token of the line is the alias and
    the second is the command, but the argument [Retry] reaches the
    command lower-cased, the whole line being lower-cased before it is
    cut into tokens. *)
Lemma argument_case_not_preserved :
  PyStr.split "@bioconda-bot lint Retry" = ["@bioconda-bot"; "lint"; "Retry"]
  /\ BOT_ALIAS_RE_match "@bioconda-bot" = true
  /\ map unpack (commands_of_lines ["@bioconda-bot lint Retry"])
     = [Ok ("lint", ["retry"])]
  /\ map unpack (commands_of_lines ["@bioconda-bot lint Retry"])
     <> [Ok ("lint", ["Retry"])].
Proof.
  repeat split; try (vm_compute; reflexivity).
  vm_compute. discriminate.
Qed.

Lemma alias_only_line_raises_witness :
  comment_created (accepting_env 1)
    (comment_event (unlines ["@bioconda-bot lint"; "@bioconda-bot";
                             "@bioconda-bot merge"]))
    (sample_gateway JNull JNull)
  = ([dispatch_call "lint" []], Raise ValueError).
Proof.
  apply (alias_only_line_raises (accepting_env 1) _ (sample_gateway JNull JNull)
           (unlines ["@bioconda-bot lint"; "@bioconda-bot"; "@bioconda-bot merge"])
           ["@bioconda-bot lint"] ["@bioconda-bot merge"]
           "@bioconda-bot" "@bioconda-bot");
    try (vm_compute; reflexivity).
  repeat constructor. exists "lint", []. split; reflexivity.
Defined.

(** C8, as stated, fails: the comment has a line that is the alias
    alone, and yet the command of the line before it is dispatched
    before the handler raises. *)
Lemma earlier_command_still_dispatched :
  let body := unlines ["@bioconda-bot lint"; "@bioconda-bot"] in
  In "@bioconda-bot" (PyStr.splitlines body)
  /\ command_of_line "@bioconda-bot" = []
  /\ comment_created (accepting_env 1) (comment_event body)
       (sample_gateway JNull JNull)
     = ([dispatch_call "lint" []], Raise ValueError).
Proof.
  repeat split; try (vm_compute; reflexivity).
  vm_compute. right; left; reflexivity.
Qed.

(** ** Check suites and check runs *)

Arguments Event_get : simpl never.
Arguments Event_get_default : simpl never.

Lemma py_eq_str_true (v : json) (s : string) :
  py_eq_str v s = true <-> v = JStr s.
Proof.
  destruct v; simpl; try (split; [discriminate | intros [=]]).
  rewrite String.eqb_eq. split; [now intros -> | now intros [= ->]].
Qed.

Lemma py_in_strs_true (v : json) (l : list string) :
  py_in_strs v l = true <-> exists s, In s l /\ v = JStr s.
Proof.
  unfold py_in_strs. rewrite existsb_exists.
  split; intros (s & Hin & H); exists s; split; trivial;
    now apply py_eq_str_true.
Qed.

Section CheckRuns.

Variable env : Env.

(** One step through a handler: the next lookup, call or test. *)
Ltac handler_step :=
  match goal with
  | |- context [bind (lift ?r) _] =>
      destruct r eqn:?; [rewrite bind_lift_ok | rewrite bind_lift_raise]
  | |- context [bind (call ?c ?r) _] =>
      destruct r eqn:?; [rewrite bind_call_ok | rewrite bind_call_raise]
  | |- context [bind (modify_check_run ?g ?n ?kw) _] =>
      unfold modify_check_run
  | |- context [if ?b then _ else _] => destruct b eqn:?
  | |- context [match ?l with [] => _ | _ :: _ => _ end] => destruct l eqn:?
  end; cbn [fst snd trace outcome app].

Lemma create_check_run_trace (e : Event) (ghapi : Gateway) :
  trace (create_check_run e ghapi) = []
  \/ exists head_sha,
       trace (create_check_run e ghapi)
       = [create_check_run_call "Linting Recipe(s)" head_sha].
Proof.
  unfold create_check_run, except_KeyError, lift. cbn [fst snd].
  destruct (Event_get e "check_suite/head_sha") as [sha | []] eqn:Hs;
    try (left; reflexivity).
  - right. exists sha. unfold bind, call; cbn.
    now destruct (gw_create_check_run ghapi _ sha).
  - destruct (Event_get e "check_run/head_sha") as [sha | x] eqn:Hr.
    + right. exists sha. unfold bind, call; cbn.
      now destruct (gw_create_check_run ghapi _ sha).
    + left. reflexivity.
Qed.

(** C5.  A [check_run] event whose [check_run/app/id] differs from the
    bot's application id is ignored: the handler returns without a
    single call to the gateway (no create, no modify, no query) and
    without a call to the scheduler. *)
Theorem foreign_check_run_ignored (e : Event) (ghapi : Gateway) (app_id : json) :
  event e = "check_run" ->
  Event_get e "check_run/app/id" = Ok app_id ->
  py_ne_int app_id (APP_ID env) = true ->
  event_routes_dispatch env e ghapi = ([], Ok tt).
Proof.
  intros Hev Hid Hne.
  unfold event_routes_dispatch. rewrite Hev. cbn.
  unfold handle_check_run. rewrite Hid, bind_lift_ok, Hne. reflexivity.
Qed.

(** C6.  A [check_suite] event whose action is neither [requested] nor
    [rerequested], and a [check_suite] event whose [pull_requests] is
    empty (or absent), makes the handler call nothing: no check run is
    created. *)
Theorem idle_check_suite_creates_nothing (e : Event) (ghapi : Gateway) :
  event e = "check_suite" ->
  (Event_get e "action" <> Ok (JStr "requested") /\
   Event_get e "action" <> Ok (JStr "rerequested"))
  \/ truthy (Event_get_default e "check_suite/pull_requests" (JList [])) = false ->
  trace (event_routes_dispatch env e ghapi) = [].
Proof.
  intros Hev H.
  unfold event_routes_dispatch. rewrite Hev. cbn.
  unfold handle_check_suite.
  destruct (Event_get e "action") as [action | x] eqn:Ha;
    [rewrite bind_lift_ok | reflexivity].
  destruct (py_in_strs action ["requested"; "rerequested"]) eqn:Hin;
    [| reflexivity].
  cbn [negb].
  destruct H as [[H1 H2] | H].
  - apply py_in_strs_true in Hin as (s & [<- | [<- | []]] & ->);
      [now elim H1 | now elim H2].
  - rewrite H. reflexivity.
Qed.

Lemma dispatch_initiating (e : Event) (ghapi : Gateway) :
  initiating_event env e ->
  event_routes_dispatch env e ghapi = initiate_check_run env e ghapi.
Proof.
  intros (Hev & Hact & app_id & Hid & Hne).
  unfold event_routes_dispatch. rewrite Hev. cbn.
  unfold handle_check_run.
  rewrite Hid, bind_lift_ok, Hne, Hact, bind_lift_ok. reflexivity.
Qed.

Lemma recipes_of_filter (items : list json) (filenames : list string) :
  Forall2 has_filename items filenames ->
  recipes_of items = Ok (filter is_manifest filenames).
Proof.
  induction 1 as [|item fn items fns Hfn _ IH]; simpl; [reflexivity|].
  rewrite Hfn. simpl. rewrite IH. simpl. unfold is_manifest.
  now destruct (PyStr.endswith fn "/meta.yaml").
Qed.

Lemma initiate_no_prs (e : Event) (ghapi : Gateway)
    (check_run_number head_sha prs : json) :
  check_run_payload e check_run_number head_sha prs ->
  truthy prs = false ->
  initiate_check_run env e ghapi
  = ([modify_check_run_call check_run_number no_prs_kwargs],
     gw_modify_check_run ghapi check_run_number no_prs_kwargs).
Proof.
  intros (Hid & Hsha & Hprs) Hempty.
  unfold initiate_check_run.
  rewrite Hid, bind_lift_ok, Hsha, bind_lift_ok, Hprs, bind_lift_ok, Hempty.
  reflexivity.
Qed.

Lemma getitem_falsy_raises (v : json) (k : string) :
  truthy v = false -> exists x, getitem v k = Raise x.
Proof.
  destruct v as [| | | | |fields]; simpl; intros H;
    try (now exists TypeError).
  destruct fields; [now exists KeyError | discriminate].
Qed.

Lemma initiate_pr_not_found (e : Event) (ghapi : Gateway)
    (check_run_number head_sha prs issue_number pr : json) (number : Z) :
  check_run_payload e check_run_number head_sha prs ->
  truthy prs = true ->
  first_pr_number prs issue_number ->
  pr_lookup env ghapi issue_number number pr ->
  truthy pr = false ->
  trace (initiate_check_run env e ghapi)
  = [get_prs_call number;
     modify_check_run_call check_run_number (pr_not_found_kwargs issue_number)]
  /\ exists x,
       outcome (initiate_check_run env e ghapi) = Raise x /\
       (gw_modify_check_run ghapi check_run_number
          (pr_not_found_kwargs issue_number) = Ok tt ->
        getitem pr "number" = Raise x).
Proof.
  intros (Hid & Hsha & Hprs) Hsome Hnum (Hint & Hpr) Hfalsy.
  unfold initiate_check_run, first_pr_number in *.
  rewrite Hid, bind_lift_ok, Hsha, bind_lift_ok, Hprs, bind_lift_ok, Hsome.
  cbn [negb]. rewrite Hnum, bind_lift_ok, Hint, bind_lift_ok, Hpr, bind_call_ok.
  rewrite Hfalsy. cbn [negb]. unfold modify_check_run.
  fold (pr_not_found_kwargs issue_number).
  destruct (gw_modify_check_run ghapi check_run_number _) as [[] | x].
  - rewrite bind_call_ok.
    destruct (getitem_falsy_raises pr "number" Hfalsy) as [x ->].
    rewrite bind_lift_raise. split; [reflexivity | now exists x].
  - rewrite bind_call_raise. split; [reflexivity |].
    exists x. split; [reflexivity | discriminate].
Qed.

Lemma initiate_with_files (e : Event) (ghapi : Gateway)
    (check_run_number head_sha prs issue_number pr : json) (number : Z)
    (filenames : list string) :
  check_run_payload e check_run_number head_sha prs ->
  truthy prs = true ->
  first_pr_number prs issue_number ->
  pr_lookup env ghapi issue_number number pr ->
  truthy pr = true ->
  changed_files ghapi issue_number filenames ->
  initiate_check_run env e ghapi
  = bind (call (get_prs_call number) (Ok pr)) (fun _ =>
    bind (call (get_pr_modified_files_call issue_number) (Ok tt)) (fun _ =>
      match filter is_manifest filenames with
      | [] => modify_check_run ghapi check_run_number no_recipes_kwargs
      | recipes =>
          user <- lift (getpath pr ["head"; "user"; "login"]) ;;
          repo <- lift (getpath pr ["head"; "repo"; "name"]) ;;
          ref <- lift (getpath pr ["head"; "ref"]) ;;
          installation <- lift (Event_get e "installation/id") ;;
          let pr_info :=
            mkPRInfo installation user repo ref recipes issue_number in
          call (schedule_call pr_info head_sha check_run_number)
               (lint_check_schedule env pr_info head_sha check_run_number ghapi)
      end)).
Proof.
  intros (Hid & Hsha & Hprs) Hsome Hnum (Hint & Hpr) Htruthy
         (files & items & Hfiles & Hiter & Hnames).
  unfold initiate_check_run, first_pr_number in *.
  rewrite Hid, bind_lift_ok, Hsha, bind_lift_ok, Hprs, bind_lift_ok, Hsome.
  cbn [negb]. rewrite Hnum, bind_lift_ok, Hint, bind_lift_ok, Hpr.
  rewrite !bind_call_ok, Htruthy. cbn [negb].
  rewrite Hfiles, bind_call_ok, Hiter. cbn [res_bind].
  rewrite (recipes_of_filter items filenames Hnames), bind_lift_ok.
  cbn [fst snd]. now destruct (filter is_manifest filenames).
Qed.

Lemma initiate_no_recipes (e : Event) (ghapi : Gateway)
    (check_run_number head_sha prs issue_number pr : json) (number : Z)
    (filenames : list string) :
  check_run_payload e check_run_number head_sha prs ->
  truthy prs = true ->
  first_pr_number prs issue_number ->
  pr_lookup env ghapi issue_number number pr ->
  truthy pr = true ->
  changed_files ghapi issue_number filenames ->
  filter is_manifest filenames = [] ->
  initiate_check_run env e ghapi
  = ([get_prs_call number; get_pr_modified_files_call issue_number;
      modify_check_run_call check_run_number no_recipes_kwargs],
     gw_modify_check_run ghapi check_run_number no_recipes_kwargs).
Proof.
  intros Hpay Hsome Hnum Hpr Htruthy Hfiles Hnone.
  rewrite (initiate_with_files e ghapi _ _ _ _ _ _ _
             Hpay Hsome Hnum Hpr Htruthy Hfiles), Hnone.
  reflexivity.
Qed.

(** C9.  On a [check_run] / [created] event of the bot's own whose
    pull-request lookup answers an empty (falsy) result, the handler
    asks for the pull request, issues the one [modify_check_run] call
    and then ends with an exception; when the modify call returns, the
    exception is the one raised by subscripting the empty result. *)
Theorem pr_not_found_branch_raises (e : Event) (ghapi : Gateway)
    (check_run_number head_sha prs issue_number pr : json) (number : Z) :
  initiating_event env e ->
  check_run_payload e check_run_number head_sha prs ->
  truthy prs = true ->
  first_pr_number prs issue_number ->
  pr_lookup env ghapi issue_number number pr ->
  truthy pr = false ->
  trace (event_routes_dispatch env e ghapi)
  = [get_prs_call number;
     modify_check_run_call check_run_number (pr_not_found_kwargs issue_number)]
  /\ exists x,
       outcome (event_routes_dispatch env e ghapi) = Raise x /\
       (gw_modify_check_run ghapi check_run_number
          (pr_not_found_kwargs issue_number) = Ok tt ->
        getitem pr "number" = Raise x).
Proof.
  intros Hinit Hpay Hsome Hnum Hpr Hfalsy.
  rewrite (dispatch_initiating e ghapi Hinit).
  now apply (initiate_pr_not_found e ghapi _ head_sha prs).
Qed.


(** C10.  The recipe filter keeps exactly the changed files whose
    filename ends with ["/meta.yaml"], in the order of the list; a file
    whose whole path is ["meta.yaml"] is never among the recipes. *)
Theorem recipe_filter_suffix (items : list json) (filenames : list string) :
  Forall2 has_filename items filenames ->
  recipes_of items = Ok (filter is_manifest filenames)
  /\ (forall f : string,
        In f (filter is_manifest filenames) <->
        In f filenames /\ exists p : string, f = (p ++ "/meta.yaml")%string)
  /\ ~ In "meta.yaml" (filter is_manifest filenames).
Proof.
  intros Hnames. split; [now apply recipes_of_filter|]. split.
  - intros f. rewrite filter_In. unfold is_manifest.
    now rewrite PyStrFacts.endswith_spec.
  - rewrite filter_In. intros [_ H]. vm_compute in H. discriminate.
Qed.

(** *** The calls each handler can make *)

Lemma dispatch_commands_calls (e : Event) (ghapi : Gateway)
    (cmds : list (list string)) :
  Forall (fun c => is_dispatch c = true)
         (trace (dispatch_commands env e ghapi cmds)).
Proof.
  induction cmds as [|[|cmd args] cmds IH]; cbn [dispatch_commands unpack].
  - constructor.
  - rewrite bind_lift_raise. constructor.
  - rewrite bind_lift_ok. cbn [fst snd].
    destruct (command_routes_dispatch env cmd e ghapi args).
    + rewrite bind_call_ok. constructor; [reflexivity | exact IH].
    + rewrite bind_call_raise. repeat constructor.
Qed.

Lemma comment_created_calls (e : Event) (ghapi : Gateway) :
  Forall (fun c => is_dispatch c = true) (trace (comment_created env e ghapi)).
Proof.
  unfold comment_created.
  destruct (getpath (data e) ["comment"; "body"]) as [body | x];
    [rewrite bind_lift_ok | constructor].
  destruct (py_splitlines body) as [lines | x];
    [rewrite bind_lift_ok | constructor].
  apply dispatch_commands_calls.
Qed.

Lemma initiate_check_run_calls (e : Event) (ghapi : Gateway) :
  Forall (fun c => is_create c = false /\ is_dispatch c = false)
         (trace (initiate_check_run env e ghapi)).
Proof.
  unfold initiate_check_run, trace.
  repeat handler_step; unfold modify_check_run, call; cbn [fst snd];
    repeat constructor.
Qed.

(** What the router does with an event, by its type. *)
Lemma event_routes_dispatch_cases (e : Event) (ghapi : Gateway) :
  (event e = "check_suite" /\
   event_routes_dispatch env e ghapi = handle_check_suite e ghapi)
  \/ (event e = "check_run" /\
      event_routes_dispatch env e ghapi = handle_check_run env e ghapi)
  \/ Forall (fun c => is_dispatch c = true)
            (trace (event_routes_dispatch env e ghapi)).
Proof.
  unfold event_routes_dispatch.
  destruct (String.eqb (event e) "issue_comment") eqn:H1.
  { right; right. destruct (getitem (data e) "action") as [a | x];
      [| constructor].
    destruct (py_eq_str a "created");
      [apply comment_created_calls | constructor]. }
  destruct (String.eqb (event e) "status") eqn:H2.
  { right; right. constructor. }
  destruct (String.eqb (event e) "check_suite") eqn:H3.
  { left. now apply String.eqb_eq in H3. }
  destruct (String.eqb (event e) "check_run") eqn:H4.
  { right; left. now apply String.eqb_eq in H4. }
  right; right. constructor.
Qed.

Lemma handle_check_suite_cases (e : Event) (ghapi : Gateway) :
  trace (handle_check_suite e ghapi) = []
  \/ ((Event_get e "action" = Ok (JStr "requested") \/
       Event_get e "action" = Ok (JStr "rerequested")) /\
      handle_check_suite e ghapi = create_check_run e ghapi).
Proof.
  unfold handle_check_suite.
  destruct (Event_get e "action") as [action | x] eqn:Ha;
    [rewrite bind_lift_ok | now left].
  destruct (py_in_strs action ["requested"; "rerequested"]) eqn:Hin;
    [| now left].
  cbn [negb].
  destruct (truthy (Event_get_default e "check_suite/pull_requests" (JList [])));
    [| now left].
  right. split; [| reflexivity].
  apply py_in_strs_true in Hin as (s & [<- | [<- | []]] & ->); auto.
Qed.

Lemma handle_check_run_cases (e : Event) (ghapi : Gateway) :
  trace (handle_check_run env e ghapi) = []
  \/ (passes_guard env e /\
      Event_get e "action" = Ok (JStr "rerequested") /\
      handle_check_run env e ghapi = create_check_run e ghapi)
  \/ (passes_guard env e /\
      Event_get e "action" = Ok (JStr "created") /\
      handle_check_run env e ghapi = initiate_check_run env e ghapi).
Proof.
  unfold handle_check_run.
  destruct (Event_get e "check_run/app/id") as [app_id | x] eqn:Hid;
    [rewrite bind_lift_ok | now left].
  destruct (py_ne_int app_id (APP_ID env)) eqn:Hne; [now left|].
  assert (Hguard : passes_guard env e) by (exists app_id; now split).
  destruct (Event_get e "action") as [action | x] eqn:Ha;
    [rewrite bind_lift_ok | now left].
  destruct (py_eq_str action "rerequested") eqn:Hre.
  { apply py_eq_str_true in Hre as ->. right; left. auto. }
  destruct (py_eq_str action "created") eqn:Hcr; [| now left].
  apply py_eq_str_true in Hcr as ->. right; right. auto.
Qed.

Lemma create_check_run_calls (e : Event) (ghapi : Gateway) :
  Forall (fun c => is_modify c = false)
         (trace (create_check_run e ghapi))
  /\ length (filter is_create (trace (create_check_run e ghapi))) <= 1.
Proof.
  destruct (create_check_run_trace e ghapi) as [-> | [sha ->]]; simpl;
    split; repeat constructor.
Qed.

Lemma filter_none {A : Type} (f : A -> bool) (l : list A) :
  Forall (fun x => f x = false) l -> filter f l = [].
Proof. induction 1 as [|x l Hx _ IH]; simpl; [|rewrite Hx]; auto. Qed.

Lemma dispatch_is_not_create (c : Call) :
  is_dispatch c = true -> is_create c = false /\ is_modify c = false.
Proof. now destruct c. Qed.

(** A create request is only made on a creating event. *)
Lemma create_only_on_creating_event (e : Event) (ghapi : Gateway) (c : Call) :
  In c (trace (event_routes_dispatch env e ghapi)) ->
  is_create c = true ->
  creating_event env e.
Proof.
  intros Hin Hc.
  destruct (event_routes_dispatch_cases e ghapi) as [[Hev H] | [[Hev H] | H]].
  - rewrite H in Hin.
    destruct (handle_check_suite_cases e ghapi) as [Hnil | [Hact _]].
    + rewrite Hnil in Hin. destruct Hin.
    + left. now split.
  - rewrite H in Hin.
    destruct (handle_check_run_cases e ghapi)
      as [Hnil | [(Hg & Hact & _) | (_ & _ & Heq)]].
    + rewrite Hnil in Hin. destruct Hin.
    + right. now repeat split.
    + rewrite Heq in Hin.
      pose proof (initiate_check_run_calls e ghapi) as Hall.
      rewrite Forall_forall in Hall. destruct (Hall c Hin) as [Hno _].
      congruence.
  - rewrite Forall_forall in H.
    destruct (dispatch_is_not_create c (H c Hin)). congruence.
Qed.

(** A modify request is only made on a [check_run] / [created] event
    that passed the guard. *)
Lemma modify_only_on_initiating_event (e : Event) (ghapi : Gateway) (c : Call) :
  In c (trace (event_routes_dispatch env e ghapi)) ->
  is_modify c = true ->
  initiating_event env e.
Proof.
  intros Hin Hc.
  destruct (event_routes_dispatch_cases e ghapi) as [[Hev H] | [[Hev H] | H]].
  - rewrite H in Hin.
    destruct (handle_check_suite_cases e ghapi) as [Hnil | [_ Heq]].
    + rewrite Hnil in Hin. destruct Hin.
    + rewrite Heq in Hin.
      destruct (create_check_run_calls e ghapi) as [Hall _].
      rewrite Forall_forall in Hall. specialize (Hall c Hin). congruence.
  - rewrite H in Hin.
    destruct (handle_check_run_cases e ghapi)
      as [Hnil | [(_ & _ & Heq) | (Hg & Hact & _)]].
    + rewrite Hnil in Hin. destruct Hin.
    + rewrite Heq in Hin.
      destruct (create_check_run_calls e ghapi) as [Hall _].
      rewrite Forall_forall in Hall. specialize (Hall c Hin). congruence.
    + now repeat split.
  - rewrite Forall_forall in H.
    destruct (dispatch_is_not_create c (H c Hin)). congruence.
Qed.

(** Handling one event makes at most one create request. *)
Lemma at_most_one_create_per_event (e : Event) (ghapi : Gateway) :
  length (filter is_create (trace (event_routes_dispatch env e ghapi))) <= 1.
Proof.
  destruct (event_routes_dispatch_cases e ghapi) as [[Hev H] | [[Hev H] | H]].
  - rewrite H.
    destruct (handle_check_suite_cases e ghapi) as [-> | [_ ->]];
      [simpl; lia | apply create_check_run_calls].
  - rewrite H.
    destruct (handle_check_run_cases e ghapi)
      as [-> | [(_ & _ & ->) | (_ & _ & ->)]];
      [simpl; lia | apply create_check_run_calls |].
    rewrite filter_none; [simpl; lia|].
    eapply Forall_impl; [| apply initiate_check_run_calls].
    now intros c [Hc _].
  - rewrite filter_none; [simpl; lia|].
    eapply Forall_impl; [| exact H].
    intros c Hc. now apply dispatch_is_not_create.
Qed.

(** Handling a [check_run] / [created] event makes no create request. *)
Lemma no_create_on_created (e : Event) (ghapi : Gateway) :
  event e = "check_run" ->
  Event_get e "action" = Ok (JStr "created") ->
  filter is_create (trace (event_routes_dispatch env e ghapi)) = [].
Proof.
  intros Hev Hact.
  destruct (filter is_create (trace (event_routes_dispatch env e ghapi)))
    as [|c l] eqn:Hf; [reflexivity|].
  assert (Hc : In c (filter is_create (trace (event_routes_dispatch env e ghapi))))
    by (rewrite Hf; now left).
  apply filter_In in Hc as [Hin Hc].
  destruct (create_only_on_creating_event e ghapi c Hin Hc)
    as [[Hev' _] | (_ & Hact' & _)]; congruence.
Qed.

(** Handling a [check_run] / [completed] event calls nothing. *)
Lemma nothing_on_completed (e : Event) (ghapi : Gateway) :
  event e = "check_run" ->
  Event_get e "action" = Ok (JStr "completed") ->
  trace (event_routes_dispatch env e ghapi) = [].
Proof.
  intros Hev Hact.
  replace (event_routes_dispatch env e ghapi) with (handle_check_run env e ghapi)
    by (unfold event_routes_dispatch; now rewrite Hev).
  destruct (handle_check_run_cases e ghapi)
    as [Hnil | [(_ & Hact' & _) | (_ & Hact' & _)]];
    [exact Hnil | congruence | congruence].
Qed.

(** *** Causal chains *)

Lemma chain_steps_are_handlings (steps : list (Event * list Call)) :
  causal_chain env steps ->
  Forall (fun step => exists ghapi,
            snd step = trace (event_routes_dispatch env (fst step) ghapi))
         steps.
Proof.
  induction 1 as [e ghapi | e ghapi c e' t' rest _ _ _ IH].
  - constructor; [now exists ghapi | constructor].
  - constructor; [now exists ghapi | exact IH].
Qed.

Lemma chain_calls_cons (e : Event) (t : list Call)
    (rest : list (Event * list Call)) :
  chain_calls ((e, t) :: rest) = t ++ chain_calls rest.
Proof. reflexivity. Qed.

Lemma chain_after_completed (e : Event) (t : list Call)
    (rest : list (Event * list Call)) :
  causal_chain env ((e, t) :: rest) ->
  event e = "check_run" ->
  Event_get e "action" = Ok (JStr "completed") ->
  chain_calls ((e, t) :: rest) = [].
Proof.
  intros Hchain Hev Hact.
  inversion Hchain as [e0 ghapi | e0 ghapi c e' t' rest' Hin _ _]; subst.
  - unfold chain_calls. simpl.
    now rewrite (nothing_on_completed e ghapi Hev Hact).
  - rewrite (nothing_on_completed e ghapi Hev Hact) in Hin. destruct Hin.
Qed.

Lemma chain_after_created (e : Event) (t : list Call)
    (rest : list (Event * list Call)) :
  causal_chain env ((e, t) :: rest) ->
  event e = "check_run" ->
  Event_get e "action" = Ok (JStr "created") ->
  filter is_create (chain_calls ((e, t) :: rest)) = [].
Proof.
  intros Hchain Hev Hact.
  inversion Hchain as [e0 ghapi | e0 ghapi c e' t' rest' Hin Hcause Hrest];
    subst; rewrite chain_calls_cons.
  - cbn [chain_calls map concat]. rewrite app_nil_r.
    now apply no_create_on_created.
  - rewrite filter_app, (no_create_on_created e ghapi Hev Hact). simpl.
    inversion Hcause as [name sha e1 _ _ _ _ | number kw e1 Hev' Hact' _]; subst.
    + assert (Hc : In (create_check_run_call name sha)
                      (filter is_create
                         (trace (event_routes_dispatch env e ghapi))))
        by (apply filter_In; now split).
      rewrite (no_create_on_created e ghapi Hev Hact) in Hc. destruct Hc.
    + now rewrite (chain_after_completed e' t' rest' Hrest Hev' Hact').
Qed.

Lemma chain_creates_once (steps : list (Event * list Call)) :
  causal_chain env steps ->
  length (filter is_create (chain_calls steps)) <= 1.
Proof.
  intros Hchain.
  inversion Hchain as [e ghapi | e ghapi c e' t' rest Hin Hcause Hrest].
  - unfold chain_calls. simpl. rewrite app_nil_r.
    apply at_most_one_create_per_event.
  - inversion Hcause as [name sha e1 Hev' Hact' _ _ | number kw e1 _ _ _]; subst.
    + rewrite chain_calls_cons, filter_app.
      rewrite (chain_after_created e' t' rest Hrest Hev' Hact'), app_nil_r.
      apply at_most_one_create_per_event.
    + destruct (modify_only_on_initiating_event e ghapi _ Hin eq_refl)
        as (Hev & Hact & _).
      rewrite (chain_after_created e _ _ Hchain Hev Hact). simpl. lia.
Qed.

(** C1 (as amended).  Along every causal event chain: a create request
    is only issued while handling a [check_suite] event with action
    [requested] or [rerequested], or a [check_run] event with action
    [rerequested] that passed the application-identity guard; a modify
    request is only issued while handling a [check_run] event with
    action [created] that passed the guard; and the whole chain holds at
    most one create request, hence never two for the same head SHA and
    installation. *)
Theorem orchestrator_chain_invariant (steps : list (Event * list Call)) :
  causal_chain env steps ->
  (forall e t c, In (e, t) steps -> In c t -> is_create c = true ->
                 creating_event env e)
  /\ (forall e t c, In (e, t) steps -> In c t -> is_modify c = true ->
                    initiating_event env e)
  /\ length (filter is_create (chain_calls steps)) <= 1.
Proof.
  intros Hchain.
  pose proof (chain_steps_are_handlings steps Hchain) as Hsteps.
  rewrite Forall_forall in Hsteps.
  split; [| split].
  - intros e t c Hin Hc Hcreate.
    destruct (Hsteps _ Hin) as [ghapi Ht]. simpl in Ht. subst t.
    now apply (create_only_on_creating_event e ghapi c).
  - intros e t c Hin Hc Hmodify.
    destruct (Hsteps _ Hin) as [ghapi Ht]. simpl in Ht. subst t.
    now apply (modify_only_on_initiating_event e ghapi c).
  - now apply chain_creates_once.
Qed.

End CheckRuns.

(** ** The properties at sample deliveries *)

(** C1, as stated, fails: a [check_run] event with action [rerequested]
    that passes the guard makes the handler issue a create request. *)
Lemma check_run_rerequested_creates :
  let e := check_run_event "rerequested" 1 [] in
  event e = "check_run"
  /\ trace (event_routes_dispatch (accepting_env 1) e (sample_gateway JNull JNull))
     = [create_check_run_call "Linting Recipe(s)" (JStr "abc123")].
Proof. split; vm_compute; reflexivity. Qed.

Lemma orchestrator_chain_invariant_witness :
  length (filter is_create (chain_calls sample_chain)) <= 1
  /\ chain_calls sample_chain
     = [create_check_run_call "Linting Recipe(s)" (JStr "abc123");
        modify_check_run_call (JInt 42) no_prs_kwargs].
Proof.
  split; [| vm_compute; reflexivity].
  apply (orchestrator_chain_invariant (accepting_env 1) sample_chain).
  unfold sample_chain.
  eapply chain_next; [left; reflexivity | | ].
  - apply caused_created; vm_compute; reflexivity.
  - eapply chain_next; [left; reflexivity | | apply chain_last].
    apply caused_completed; vm_compute; reflexivity.
Defined.

(** C2 at its failing input.  On a [check_run] / [created] event of the
    bot's own with no associated pull request the handler makes the one
    [modify_check_run] call, with status [completed] and conclusion
    [neutral] and the title, and makes no other call; but the summary
    is passed under the keyword [outout_summary], so that the call
    supplies no [output_summary]. *)
Theorem no_prs_summary_keyword_misspelt :
  let e := check_run_event "created" 1 [] in
  exists kw : kwargs,
    trace (event_routes_dispatch (accepting_env 1) e (sample_gateway JNull JNull))
    = [modify_check_run_call (JInt 42) kw]
    /\ kwarg_get "status" kw = Some (KwStatus completed)
    /\ kwarg_get "conclusion" kw = Some (KwConclusion neutral)
    /\ kwarg_get "output_title" kw = Some (KwStr "No PRs associated")
    /\ kwarg_get "output_summary" kw = None
    /\ kwarg_get "outout_summary" kw
       = Some (KwStr "Merges commits are not linted")
    /\ kwarg_get "output_summary" no_recipes_kwargs
       = Some (KwStr "No need to check anything.").
Proof.
  exists no_prs_kwargs. repeat split; vm_compute; reflexivity.
Qed.



Lemma pr_not_found_branch_raises_witness :
  let e := check_run_event "created" 1 [sample_pr_ref] in
  let ghapi := sample_gateway JNull JNull in
  trace (event_routes_dispatch (accepting_env 1) e ghapi)
  = [get_prs_call 5;
     modify_check_run_call (JInt 42) (pr_not_found_kwargs (JInt 5))]
  /\ exists x,
       outcome (event_routes_dispatch (accepting_env 1) e ghapi) = Raise x /\
       (gw_modify_check_run ghapi (JInt 42) (pr_not_found_kwargs (JInt 5)) = Ok tt ->
        getitem JNull "number" = Raise x).
Proof.
  apply (pr_not_found_branch_raises (accepting_env 1)
           (check_run_event "created" 1 [sample_pr_ref])
           (sample_gateway JNull JNull)
           (JInt 42) (JStr "abc123") (JList [sample_pr_ref]) (JInt 5) JNull 5).
  - repeat split. exists (JInt 1). split; reflexivity.
  - repeat split.
  - reflexivity.
  - reflexivity.
  - split; reflexivity.
  - reflexivity.
Defined.

Lemma foreign_check_run_ignored_witness :
  event_routes_dispatch (accepting_env 1) (check_run_event "created" 99 [])
    (sample_gateway JNull JNull)
  = ([], Ok tt).
Proof.
  apply (foreign_check_run_ignored (accepting_env 1)
           (check_run_event "created" 99 []) (sample_gateway JNull JNull)
           (JInt 99)); reflexivity.
Defined.

Lemma idle_check_suite_creates_nothing_witness :
  trace (event_routes_dispatch (accepting_env 1)
           (check_suite_event "completed" [sample_pr_ref])
           (sample_gateway JNull JNull)) = []
  /\ trace (event_routes_dispatch (accepting_env 1)
              (check_suite_event "requested" [])
              (sample_gateway JNull JNull)) = [].
Proof.
  split.
  - apply (idle_check_suite_creates_nothing (accepting_env 1)
             (check_suite_event "completed" [sample_pr_ref])
             (sample_gateway JNull JNull)); [reflexivity |].
    left. split; vm_compute; discriminate.
  - apply (idle_check_suite_creates_nothing (accepting_env 1)
             (check_suite_event "requested" [])
             (sample_gateway JNull JNull)); [reflexivity |].
    right. reflexivity.
Defined.

Lemma recipe_filter_suffix_witness :
  recipes_of [file_item "recipes/foo/meta.yaml"; file_item "meta.yaml";
              file_item "recipes/foo/build.sh"; file_item "recipes/bar/meta.yaml"]
  = Ok ["recipes/foo/meta.yaml"; "recipes/bar/meta.yaml"].
Proof.
  apply (recipe_filter_suffix
           [file_item "recipes/foo/meta.yaml"; file_item "meta.yaml";
            file_item "recipes/foo/build.sh"; file_item "recipes/bar/meta.yaml"]
           ["recipes/foo/meta.yaml"; "meta.yaml";
            "recipes/foo/build.sh"; "recipes/bar/meta.yaml"]).
  repeat constructor.
Defined.

(** * Further properties of the handlers *)

(** ** Which lines are command lines *)

Module AliasFacts.
Import PyStr Re.

Lemma lower_char_idem (c : ascii) : lower_char (lower_char c) = lower_char c.
Proof. PyStrFacts.by_cases_on_char c. Qed.

Lemma lower_idem (s : string) : lower (lower s) = lower s.
Proof.
  induction s as [|c s IH]; simpl; [reflexivity|].
  now rewrite lower_char_idem, IH.
Qed.

Lemma char_eq_lower (a c : ascii) :
  Ascii.eqb (lower_char a) a = true ->
  char_eq true a c = char_eq false a (lower_char c).
Proof.
  intros H. apply Ascii.eqb_eq in H. unfold char_eq. now rewrite H.
Qed.

(** Under [re.IGNORECASE] a pattern written in lower case matches a text
    exactly when it matches, case-sensitively, the lower-cased text. *)
Lemma match_prefix_lower (p : pattern) :
  lower_closed p = true ->
  forall s, match_prefix true p s = match_prefix false p (lower s).
Proof.
  unfold lower_closed.
  induction p as [|[a|cs] p IH]; intros Hp s;
    cbn [match_prefix forallb] in *.
  - reflexivity.
  - apply andb_true_iff in Hp as [Ha Hp].
    destruct s as [|c s]; cbn [lower]; [reflexivity|].
    now rewrite (char_eq_lower a c Ha), IH.
  - apply andb_true_iff in Hp as [Hcs Hp].
    destruct s as [|c s]; cbn [lower]; [now apply IH|].
    rewrite (IH Hp s), (IH Hp (String c s)). cbn [lower].
    f_equal. f_equal.
    clear -Hcs. induction cs as [|a cs IHcs]; cbn [existsb forallb] in *;
      [reflexivity|].
    apply andb_true_iff in Hcs as [Ha Hcs].
    now rewrite (char_eq_lower a c Ha), IHcs.
Qed.

Lemma char_eq_exact (a c : ascii) : char_eq false a c = true <-> c = a.
Proof.
  unfold char_eq. rewrite Ascii.eqb_eq. split; congruence.
Qed.

(** A run of literal characters matches by being a prefix. *)
Lemma match_prefix_lits (s : string) (p : pattern) (t : string) :
  match_prefix false (lits s ++ p) t = true <->
  exists r, t = (s ++ r)%string /\ match_prefix false p r = true.
Proof.
  revert t; induction s as [|a s IH]; intros t.
  - simpl. split; [intros H; now exists t | now intros (r & -> & H)].
  - change (lits (String a s) ++ p) with (Lit a :: (lits s ++ p)).
    cbn [match_prefix]. destruct t as [|c t].
    + split; [discriminate | intros (r & H & _); discriminate].
    + rewrite andb_true_iff, char_eq_exact, IH. split.
      * intros (-> & r & -> & H). now exists r.
      * intros (r & H & Hr). injection H as -> ->. split; [reflexivity|].
        now exists r.
Qed.

Lemma match_prefix_optclass (cs : list ascii) (p : pattern) (t : string) :
  match_prefix false (OptClass cs :: p) t = true <->
  (exists c r, t = String c r /\ In c cs /\ match_prefix false p r = true)
  \/ match_prefix false p t = true.
Proof.
  cbn [match_prefix]. destruct t as [|c t].
  - split; [now right | intros [(c & r & H & _) | H]; [discriminate | exact H]].
  - rewrite orb_true_iff, andb_true_iff, existsb_exists. split.
    + intros [[(a & Ha & Heq) Hp] | H]; [left | now right].
      apply char_eq_exact in Heq as ->. now exists a, t.
    + intros [(a & r & H & Ha & Hp) | H]; [left | now right].
      injection H as -> ->. split; [|exact Hp].
      exists a. split; [exact Ha | now apply char_eq_exact].
Qed.

End AliasFacts.

(** X1.  A line is a command line exactly when, lower-cased, it begins
    with ["@bioconda-bot"], ["@bioconda bot"] or ["@biocondabot"]. *)
Theorem alias_match_characterised (line : string) :
  BOT_ALIAS_RE_match line = true <->
  exists rest : string,
    PyStr.lower line = ("@bioconda-bot" ++ rest)%string \/
    PyStr.lower line = ("@bioconda bot" ++ rest)%string \/
    PyStr.lower line = ("@biocondabot" ++ rest)%string.
Proof.
  unfold BOT_ALIAS_RE_match.
  rewrite (AliasFacts.match_prefix_lower BOT_ALIAS_RE eq_refl).
  unfold BOT_ALIAS_RE.
  rewrite AliasFacts.match_prefix_lits.
  split.
  - intros (r & Hr & H).
    change ([Re.OptClass ["-"%char; " "%char]] ++ Re.lits "bot")
      with (Re.OptClass ["-"%char; " "%char] :: (Re.lits "bot" ++ [])) in H.
    apply AliasFacts.match_prefix_optclass in H
      as [(c & r' & -> & Hc & H) | H];
      apply AliasFacts.match_prefix_lits in H as (rest & -> & _);
      exists rest; rewrite Hr.
    + destruct Hc as [<- | [<- | []]]; [left | right; left]; reflexivity.
    + right; right. reflexivity.
  - intros (rest & [H | [H | H]]); rewrite H.
    + exists ("-bot" ++ rest)%string. split; [reflexivity|].
      vm_compute. reflexivity.
    + exists (" bot" ++ rest)%string. split; [reflexivity|].
      vm_compute. reflexivity.
    + exists ("bot" ++ rest)%string. split; [reflexivity|].
      vm_compute. reflexivity.
Qed.

(** ** What the command handlers receive *)

Module TokenFacts.
Import PyStr.

Lemma no_space_app_char (s : string) (c : ascii) :
  no_space (s ++ String c "") = no_space s && negb (isspace c).
Proof.
  induction s as [|d s IH]; simpl.
  - now rewrite andb_true_r.
  - now rewrite IH, andb_assoc.
Qed.

(** Every token that [split] cuts is non-empty and free of whitespace. *)
Lemma split_from_tokens (s cur : string) :
  no_space cur = true ->
  Forall (fun t => is_empty t = false /\ no_space t = true) (split_from cur s).
Proof.
  revert cur; induction s as [|c s IH]; intros cur Hcur; simpl.
  - destruct (is_empty cur) eqn:He; repeat constructor; assumption.
  - destruct (isspace c) eqn:Hc.
    + destruct (is_empty cur) eqn:He; [now apply IH|].
      constructor; [now split | now apply IH].
    + apply IH. now rewrite no_space_app_char, Hcur, Hc.
Qed.

Lemma app_empty_r (s : string) : (s ++ "")%string = s.
Proof. induction s as [|c s IH]; simpl; [reflexivity | now rewrite IH]. Qed.

(** Once a token has begun, it is the first one cut, whatever follows. *)
Lemma split_from_begun (s cur : string) :
  is_empty cur = false ->
  exists w rest, split_from cur s = (cur ++ w)%string :: rest.
Proof.
  revert cur; induction s as [|c s IH]; intros cur Hcur; simpl.
  - rewrite Hcur. exists ""%string, []. now rewrite app_empty_r.
  - destruct (isspace c).
    + rewrite Hcur. exists ""%string, (split_from "" s).
      now rewrite app_empty_r.
    + destruct (IH (cur ++ String c "")%string
                  (PyStrFacts.is_empty_app_char cur c)) as (w & rest & ->).
      exists (String c w), rest.
      now rewrite PyStrFacts.app_assoc_string.
Qed.

Lemma Forall_tl {A : Type} (P : A -> Prop) (l : list A) :
  Forall P l -> Forall P (tl l).
Proof. now destruct 1. Qed.

End TokenFacts.

Section CommentDispatch.

Variable env : Env.

(** X2.  Every command name and argument taken from a comment is
    non-empty, free of whitespace and in lower case. *)
Theorem commands_are_clean_tokens (body : string) :
  Forall (Forall clean_token) (commands body).
Proof.
  unfold commands, commands_of_lines.
  apply Forall_map, Forall_forall. intros line _.
  unfold command_of_line. apply TokenFacts.Forall_tl.
  pose proof (TokenFacts.split_from_tokens (PyStr.lower line) "" eq_refl) as Hsp.
  fold (PyStr.split (PyStr.lower line)) in Hsp.
  pose proof (PyStrFacts.split_lower line) as Hlow.
  rewrite Forall_forall in *. intros tok Hin.
  destruct (Hsp tok Hin) as [Hne Hns]. repeat split; trivial.
  rewrite Hlow in Hin. apply in_map_iff in Hin as (t & <- & _).
  apply AliasFacts.lower_idem.
Qed.

(** X3.  When a line, lower-cased, begins with ["@bioconda bot"], the
    alias written with a space, the line has at least two tokens: the
    first is ["@bioconda"] in some case and is the one dropped; the
    second begins with [bot] and, lower-cased, is what is dispatched as
    the command; the tokens after it, lower-cased, are its arguments. *)
Theorem spaced_alias_dispatches_bot (line rest : string) :
  PyStr.lower line = ("@bioconda bot" ++ rest)%string ->
  exists (t0 t1 : string) (args : list string),
    PyStr.split line = t0 :: t1 :: args
    /\ PyStr.lower t0 = "@bioconda"
    /\ (exists w : string, PyStr.lower t1 = ("bot" ++ w)%string)
    /\ map unpack (commands_of_lines [line])
       = [Ok (PyStr.lower t1, map PyStr.lower args)].
Proof.
  intros Hlow.
  assert (Hmatch : BOT_ALIAS_RE_match line = true).
  { unfold BOT_ALIAS_RE_match.
    rewrite (AliasFacts.match_prefix_lower BOT_ALIAS_RE eq_refl), Hlow.
    reflexivity. }
  pose proof (PyStrFacts.split_lower line) as Hsp.
  rewrite Hlow in Hsp. unfold PyStr.split at 1 in Hsp.
  change (PyStr.split_from "" ("@bioconda bot" ++ rest)%string)
    with ("@bioconda"%string :: PyStr.split_from "bot" rest) in Hsp.
  destruct (TokenFacts.split_from_begun rest "bot" eq_refl) as (w & more & Hb).
  rewrite Hb in Hsp.
  destruct (PyStr.split line) as [|t0 [|t1 args]] eqn:Hs; try discriminate.
  injection Hsp as H0 H1 Hargs.
  exists t0, t1, args.
  split; [reflexivity|]. split; [now symmetry|].
  split; [exists w; now symmetry|].
  unfold commands_of_lines. cbn [filter]. rewrite Hmatch. cbn [map].
  rewrite command_of_line_tokens, Hs. reflexivity.
Qed.

Lemma dispatch_commands_all_normal (e : Event) (ghapi : Gateway)
    (cmds : list (list string)) :
  Forall (dispatches_normally env e ghapi) cmds ->
  dispatch_commands env e ghapi cmds = (map dispatch_call_of cmds, Ok tt).
Proof.
  induction 1 as [|c cs (cmd & args & -> & Hok) _ IH];
    cbn [dispatch_commands map unpack]; [reflexivity|].
  rewrite bind_lift_ok. cbn [fst snd].
  rewrite Hok, bind_call_ok, IH. reflexivity.
Qed.

Lemma dispatch_commands_until_failure (e : Event) (ghapi : Gateway)
    (before after : list (list string)) (cmd : string) (args : list string)
    (x : exn) :
  Forall (dispatches_normally env e ghapi) before ->
  command_routes_dispatch env cmd e ghapi args = Raise x ->
  dispatch_commands env e ghapi (before ++ (cmd :: args) :: after)
  = (map dispatch_call_of before ++ [dispatch_call cmd args], Raise x).
Proof.
  intros Hbefore Hfail.
  induction Hbefore as [|c cs (cmd' & args' & -> & Hok) _ IH];
    cbn [dispatch_commands map app unpack].
  - rewrite bind_lift_ok. cbn [fst snd].
    rewrite Hfail, bind_call_raise. reflexivity.
  - rewrite bind_lift_ok. cbn [fst snd].
    rewrite Hok, bind_call_ok, IH. reflexivity.
Qed.

(** X4.  When every command of a comment dispatches normally, the
    handler dispatches one call per command line, in the order of the
    lines, and returns. *)
Theorem commands_dispatched_in_order (e : Event) (ghapi : Gateway)
    (body : string) :
  getpath (data e) ["comment"; "body"] = Ok (JStr body) ->
  Forall (dispatches_normally env e ghapi) (commands body) ->
  comment_created env e ghapi = (map dispatch_call_of (commands body), Ok tt).
Proof.
  intros Hbody Hall.
  unfold comment_created. rewrite Hbody, bind_lift_ok.
  cbn [py_splitlines]. rewrite bind_lift_ok.
  now apply dispatch_commands_all_normal.
Qed.

(** X5.  When the dispatch of a command raises, the handler ends with
    that exception: the commands before it have been dispatched, in
    order, and no command after it is. *)
Theorem failed_dispatch_stops_the_loop (e : Event) (ghapi : Gateway)
    (body : string) (before after : list (list string))
    (cmd : string) (args : list string) (x : exn) :
  getpath (data e) ["comment"; "body"] = Ok (JStr body) ->
  commands body = before ++ (cmd :: args) :: after ->
  Forall (dispatches_normally env e ghapi) before ->
  command_routes_dispatch env cmd e ghapi args = Raise x ->
  comment_created env e ghapi
  = (map dispatch_call_of before ++ [dispatch_call cmd args], Raise x).
Proof.
  intros Hbody Hcmds Hbefore Hfail.
  unfold comment_created. rewrite Hbody, bind_lift_ok.
  cbn [py_splitlines]. rewrite bind_lift_ok.
  fold (commands body). rewrite Hcmds.
  now apply dispatch_commands_until_failure.
Qed.

(** X6.  A comment event whose [comment] / [body] is missing or is not
    text makes the handler raise before anything is dispatched. *)
Theorem comment_without_text_raises (e : Event) (ghapi : Gateway) :
  (forall body : string,
     getpath (data e) ["comment"; "body"] <> Ok (JStr body)) ->
  trace (comment_created env e ghapi) = []
  /\ exists x, outcome (comment_created env e ghapi) = Raise x.
Proof.
  intros Hno. unfold comment_created.
  destruct (getpath (data e) ["comment"; "body"]) as [v | x] eqn:Hbody.
  - rewrite bind_lift_ok.
    destruct v; try (split; [reflexivity | now exists AttributeError]).
    now elim (Hno s).
  - split; [reflexivity | now exists x].
Qed.

End CommentDispatch.

Lemma spaced_alias_dispatches_bot_witness :
  map unpack (commands_of_lines ["@BioConda Bot lint NOW"])
  = [Ok ("bot", ["lint"; "now"])].
Proof.
  destruct (spaced_alias_dispatches_bot "@BioConda Bot lint NOW" " lint now"
              eq_refl) as (t0 & t1 & args & Hsplit & _ & _ & Hcmd).
  vm_compute in Hsplit. injection Hsplit as <- <- <-.
  exact Hcmd.
Defined.

Lemma commands_dispatched_in_order_witness :
  comment_created (accepting_env 1)
    (comment_event (unlines ["@bioconda-bot please"; "thanks!";
                             "@BiocondaBot merge NOW"]))
    (sample_gateway JNull JNull)
  = ([dispatch_call "please" []; dispatch_call "merge" ["now"]], Ok tt).
Proof.
  apply (commands_dispatched_in_order (accepting_env 1)
           (comment_event (unlines ["@bioconda-bot please"; "thanks!";
                                    "@BiocondaBot merge NOW"]))
           (sample_gateway JNull JNull)
           (unlines ["@bioconda-bot please"; "thanks!";
                     "@BiocondaBot merge NOW"])).
  - reflexivity.
  - repeat constructor.
    + exists "please", []. split; reflexivity.
    + exists "merge", ["now"]. split; reflexivity.
Defined.

Lemma failed_dispatch_stops_the_loop_witness :
  comment_created (rejecting_env 1 "merge")
    (comment_event (unlines ["@bioconda-bot lint"; "@bioconda-bot merge";
                             "@bioconda-bot update"]))
    (sample_gateway JNull JNull)
  = ([dispatch_call "lint" []; dispatch_call "merge" []], Raise ApiError).
Proof.
  apply (failed_dispatch_stops_the_loop (rejecting_env 1 "merge")
           (comment_event (unlines ["@bioconda-bot lint"; "@bioconda-bot merge";
                                    "@bioconda-bot update"]))
           (sample_gateway JNull JNull)
           (unlines ["@bioconda-bot lint"; "@bioconda-bot merge";
                     "@bioconda-bot update"])
           [["lint"]] [["update"]] "merge" [] ApiError).
  - reflexivity.
  - vm_compute. reflexivity.
  - repeat constructor. exists "lint", []. split; reflexivity.
  - reflexivity.
Defined.

Lemma comment_without_text_raises_witness :
  trace (comment_created (accepting_env 1)
           (mkEvent "issue_comment"
              (JObj [("action", JStr "created");
                     ("comment", JObj [("body", JNull)])]))
           (sample_gateway JNull JNull)) = []
  /\ exists x,
       outcome (comment_created (accepting_env 1)
                  (mkEvent "issue_comment"
                     (JObj [("action", JStr "created");
                            ("comment", JObj [("body", JNull)])]))
                  (sample_gateway JNull JNull)) = Raise x.
Proof.
  apply (comment_without_text_raises (accepting_env 1)
           (mkEvent "issue_comment"
              (JObj [("action", JStr "created");
                     ("comment", JObj [("body", JNull)])]))
           (sample_gateway JNull JNull)).
  intros body. vm_compute. discriminate.
Defined.

(** ** Creating check runs *)

Lemma Event_get_raises_KeyError (e : Event) (path : string) (x : exn) :
  Event_get e path = Raise x -> x = KeyError.
Proof.
  unfold Event_get. destruct (walk _ (data e)); [discriminate | congruence].
Qed.

Section Creation.

Variable env : Env.

Lemma dispatch_requests_creation (e : Event) (ghapi : Gateway) :
  requests_creation env e ->
  event_routes_dispatch env e ghapi = create_check_run e ghapi.
Proof.
  intros [(Hev & Hact & Hprs) | (Hev & Hact & app_id & Hid & Hne)];
    unfold event_routes_dispatch; rewrite Hev; cbn.
  - unfold handle_check_suite.
    destruct Hact as [-> | ->]; rewrite bind_lift_ok; cbn; now rewrite Hprs.
  - unfold handle_check_run.
    now rewrite Hid, bind_lift_ok, Hne, Hact, bind_lift_ok.
Qed.

Lemma create_check_run_with (e : Event) (ghapi : Gateway) (head_sha : json) :
  Event_get e "check_suite/head_sha" = Ok head_sha
  \/ ((exists x, Event_get e "check_suite/head_sha" = Raise x) /\
      Event_get e "check_run/head_sha" = Ok head_sha) ->
  create_check_run e ghapi
  = ([create_check_run_call "Linting Recipe(s)" head_sha],
     creation_outcome (gw_create_check_run ghapi "Linting Recipe(s)" head_sha)).
Proof.
  intros H. unfold create_check_run, except_KeyError, lift. cbn [fst snd].
  assert (Hsha :
    match Event_get e "check_suite/head_sha" with
    | Ok a => ([], Ok a)
    | Raise KeyError => ([] ++ [], Event_get e "check_run/head_sha")
    | Raise x => ([], Raise x)
    end = (@nil Call, Ok head_sha)).
  { destruct H as [-> | [[x Hx] Hr]]; [reflexivity|].
    rewrite Hx, (Event_get_raises_KeyError _ _ _ Hx), Hr. reflexivity. }
  destruct (Event_get e "check_suite/head_sha") as [a | []] eqn:Hs;
    try discriminate;
    injection Hsha as Hsha; try subst a; try rewrite Hsha;
    unfold bind, call; cbn;
    now destruct (gw_create_check_run ghapi "Linting Recipe(s)" head_sha).
Qed.

(** X7.  On a requested or re-requested check suite with pull requests,
    and on a re-requested check run of the bot's own, an event that
    carries [check_suite/head_sha] leads to exactly one call, the
    creation of a check run named "Linting Recipe(s)" for that SHA; a
    refusal of the gateway is what the handler ends with. *)
Theorem creation_uses_suite_head_sha (e : Event) (ghapi : Gateway)
    (head_sha : json) :
  requests_creation env e ->
  Event_get e "check_suite/head_sha" = Ok head_sha ->
  event_routes_dispatch env e ghapi
  = ([create_check_run_call "Linting Recipe(s)" head_sha],
     creation_outcome (gw_create_check_run ghapi "Linting Recipe(s)" head_sha)).
Proof.
  intros Hreq Hsha. rewrite (dispatch_requests_creation e ghapi Hreq).
  apply create_check_run_with. now left.
Qed.

(** X8.  Where the event has no [check_suite/head_sha], the check run is
    created for [check_run/head_sha] instead. *)
Theorem creation_falls_back_to_run_head_sha (e : Event) (ghapi : Gateway)
    (head_sha : json) (x : exn) :
  requests_creation env e ->
  Event_get e "check_suite/head_sha" = Raise x ->
  Event_get e "check_run/head_sha" = Ok head_sha ->
  event_routes_dispatch env e ghapi
  = ([create_check_run_call "Linting Recipe(s)" head_sha],
     creation_outcome (gw_create_check_run ghapi "Linting Recipe(s)" head_sha)).
Proof.
  intros Hreq Hs Hr. rewrite (dispatch_requests_creation e ghapi Hreq).
  apply create_check_run_with. right. split; [now exists x | exact Hr].
Qed.

(** X9.  Where the event has neither head SHA, the handler raises
    [KeyError] and no check run is created. *)
Theorem creation_without_head_sha_raises (e : Event) (ghapi : Gateway)
    (x y : exn) :
  requests_creation env e ->
  Event_get e "check_suite/head_sha" = Raise x ->
  Event_get e "check_run/head_sha" = Raise y ->
  event_routes_dispatch env e ghapi = ([], Raise KeyError).
Proof.
  intros Hreq Hs Hr. rewrite (dispatch_requests_creation e ghapi Hreq).
  unfold create_check_run, except_KeyError, lift. cbn [fst snd].
  rewrite Hs, (Event_get_raises_KeyError _ _ _ Hs).
  rewrite Hr, (Event_get_raises_KeyError _ _ _ Hr). reflexivity.
Qed.

(** X10.  A [check_run] event makes the handler call something only if
    it passed the application-identity guard and its action is
    [rerequested] or [created]; every other [check_run] event, such as a
    completion, leaves no call. *)
Theorem check_run_acts_only_on_own_requests (e : Event) (ghapi : Gateway) :
  event e = "check_run" ->
  trace (event_routes_dispatch env e ghapi) <> [] ->
  passes_guard env e
  /\ (Event_get e "action" = Ok (JStr "rerequested") \/
      Event_get e "action" = Ok (JStr "created")).
Proof.
  intros Hev Hcalls.
  replace (event_routes_dispatch env e ghapi) with (handle_check_run env e ghapi)
    in Hcalls by (unfold event_routes_dispatch; now rewrite Hev).
  destruct (handle_check_run_cases env e ghapi)
    as [Hnil | [(Hg & Hact & _) | (Hg & Hact & _)]]; auto.
  now elim Hcalls.
Qed.

End Creation.

(** ** The initiation protocol, branch by branch *)

(** One step through a handler, keeping what each lookup answered. *)
Ltac protocol_step :=
  match goal with
  | |- context [bind (lift ?r) _] =>
      destruct r eqn:?; [rewrite bind_lift_ok | rewrite bind_lift_raise]
  | |- context [bind (call ?c ?r) _] =>
      destruct r eqn:?; [rewrite bind_call_ok | rewrite bind_call_raise]
  | |- context [if ?b then _ else _] => destruct b eqn:?
  | |- context [match ?l with [] => _ | _ :: _ => _ end] => destruct l eqn:?
  end; cbn [fst snd trace outcome app].

Section Initiation.

Variable env : Env.

(** The protocol after its three lookups in the event. *)
Ltac enter_protocol Hpay :=
  let Hid := fresh "Hid" in
  let Hsha := fresh "Hsha" in
  let Hprs := fresh "Hprs" in
  destruct Hpay as (Hid & Hsha & Hprs);
  unfold initiate_check_run;
  rewrite Hid, bind_lift_ok, Hsha, bind_lift_ok, Hprs, bind_lift_ok.


Lemma initiate_modify_calls (e : Event) (ghapi : Gateway)
    (number : json) (kw : kwargs) :
  In (modify_check_run_call number kw) (trace (initiate_check_run env e ghapi)) ->
  Event_get e "check_run/id" = Ok number
  /\ kwarg_get "status" kw = Some (KwStatus completed)
  /\ (kwarg_get "conclusion" kw = Some (KwConclusion neutral) \/
      kwarg_get "conclusion" kw = Some (KwConclusion success))
  /\ exists title, kwarg_get "output_title" kw = Some (KwStr title).
Proof.
  unfold initiate_check_run, modify_check_run, trace.
  repeat protocol_step; unfold call; cbn [fst snd In];
    intros Hin;
    repeat (destruct Hin as [Hin | Hin]; try discriminate);
    try contradiction;
    injection Hin as <- <-;
    (split; [reflexivity|]); (split; [reflexivity|]);
    (split; [(left; reflexivity) || (right; reflexivity) |]);
    eexists; reflexivity.
Qed.

(** X12.  Every [modify_check_run] call a delivery leads to is for the
    check run named by the event, sets its status to [completed], gives
    it the conclusion [neutral] or [success] (never [failure]) and a
    title. *)
Theorem modify_always_completes (e : Event) (ghapi : Gateway)
    (number : json) (kw : kwargs) :
  In (modify_check_run_call number kw)
     (trace (event_routes_dispatch env e ghapi)) ->
  Event_get e "check_run/id" = Ok number
  /\ kwarg_get "status" kw = Some (KwStatus completed)
  /\ (kwarg_get "conclusion" kw = Some (KwConclusion neutral) \/
      kwarg_get "conclusion" kw = Some (KwConclusion success))
  /\ exists title, kwarg_get "output_title" kw = Some (KwStr title).
Proof.
  intros Hin.
  pose proof (modify_only_on_initiating_event env e ghapi _ Hin eq_refl) as Hinit.
  rewrite (dispatch_initiating env e ghapi Hinit) in Hin.
  now apply (initiate_modify_calls e ghapi).
Qed.

(** X13.  With no pull request associated to the check run, the handler
    asks the gateway nothing: its only call completes the check run as
    [neutral], "No PRs associated", and the gateway's answer to that
    call is how the handler ends. *)
Theorem no_prs_completes_neutral (e : Event) (ghapi : Gateway)
    (check_run_number head_sha prs : json) :
  initiating_event env e ->
  check_run_payload e check_run_number head_sha prs ->
  truthy prs = false ->
  event_routes_dispatch env e ghapi
  = ([modify_check_run_call check_run_number no_prs_kwargs],
     gw_modify_check_run ghapi check_run_number no_prs_kwargs).
Proof.
  intros Hinit Hpay Hempty.
  rewrite (dispatch_initiating env e ghapi Hinit).
  enter_protocol Hpay. now rewrite Hempty.
Qed.

(** X14.  With a pull request that changes no recipe manifest, the
    handler makes the two queries and then completes the check run as
    [success], "No recipes modified by PR"; nothing is scheduled. *)
Theorem no_recipes_completes_success (e : Event) (ghapi : Gateway)
    (check_run_number head_sha prs issue_number pr : json) (number : Z)
    (filenames : list string) :
  initiating_event env e ->
  check_run_payload e check_run_number head_sha prs ->
  truthy prs = true ->
  first_pr_number prs issue_number ->
  pr_lookup env ghapi issue_number number pr ->
  truthy pr = true ->
  changed_files ghapi issue_number filenames ->
  Forall (fun f => is_manifest f = false) filenames ->
  event_routes_dispatch env e ghapi
  = ([get_prs_call number; get_pr_modified_files_call issue_number;
      modify_check_run_call check_run_number no_recipes_kwargs],
     gw_modify_check_run ghapi check_run_number no_recipes_kwargs).
Proof.
  intros Hinit Hpay Hsome Hnum Hpr Htruthy Hfiles Hnone.
  rewrite (dispatch_initiating env e ghapi Hinit).
  rewrite (initiate_with_files env e ghapi _ _ _ _ _ _ _
             Hpay Hsome Hnum Hpr Htruthy Hfiles).
  now rewrite (filter_none is_manifest filenames Hnone).
Qed.

(** X15.  A [check_run] / [created] event that lacks the run's id, its
    head SHA or its list of pull requests makes the handler raise
    [KeyError] before any call: the check run is left as it is. *)
Theorem incomplete_payload_raises (e : Event) (ghapi : Gateway) (x : exn) :
  initiating_event env e ->
  Event_get e "check_run/id" = Raise x
  \/ Event_get e "check_run/head_sha" = Raise x
  \/ Event_get e "check_run/check_suite/pull_requests" = Raise x ->
  event_routes_dispatch env e ghapi = ([], Raise KeyError).
Proof.
  intros Hinit H.
  rewrite (dispatch_initiating env e ghapi Hinit).
  unfold initiate_check_run.
  destruct H as [H | [H | H]];
    pose proof (Event_get_raises_KeyError _ _ _ H) as ->.
  - now rewrite H, bind_lift_raise.
  - destruct (Event_get e "check_run/id") as [id | y] eqn:Hid;
      [rewrite bind_lift_ok
      | now rewrite (Event_get_raises_KeyError _ _ _ Hid)].
    now rewrite H, bind_lift_raise.
  - destruct (Event_get e "check_run/id") as [id | y] eqn:Hid;
      [rewrite bind_lift_ok
      | now rewrite (Event_get_raises_KeyError _ _ _ Hid)].
    destruct (Event_get e "check_run/head_sha") as [sha | y] eqn:Hsha;
      [rewrite bind_lift_ok | rewrite bind_lift_raise].
    + now rewrite H, bind_lift_raise.
    + now rewrite (Event_get_raises_KeyError _ _ _ Hsha).
Qed.

(** X16.  When the number of the first pull request cannot be read
    ([prs[0]['number']] or [int] of it raises), the handler ends with
    that exception before any call to the gateway. *)
Theorem unreadable_pr_number_raises (e : Event) (ghapi : Gateway)
    (check_run_number head_sha prs : json) (x : exn) :
  initiating_event env e ->
  check_run_payload e check_run_number head_sha prs ->
  truthy prs = true ->
  (let? issue_number := (let? pr0 := getitem_index prs 0 in getitem pr0 "number")
   in py_int env issue_number) = Raise x ->
  event_routes_dispatch env e ghapi = ([], Raise x).
Proof.
  intros Hinit Hpay Hsome Hbad.
  rewrite (dispatch_initiating env e ghapi Hinit).
  enter_protocol Hpay. rewrite Hsome. cbn [negb].
  destruct (let? pr0 := getitem_index prs 0 in getitem pr0 "number")
    as [issue_number | y]; cbn [res_bind] in Hbad.
  - rewrite bind_lift_ok, Hbad. reflexivity.
  - rewrite bind_lift_raise. congruence.
Qed.

(** X17.  When the lookup of the pull request fails at the gateway, the
    handler ends with that error after this one call: the check run is
    neither modified nor handed to the scheduler. *)
Theorem failed_pr_lookup_surfaces (e : Event) (ghapi : Gateway)
    (check_run_number head_sha prs issue_number : json) (number : Z) (x : exn) :
  initiating_event env e ->
  check_run_payload e check_run_number head_sha prs ->
  truthy prs = true ->
  first_pr_number prs issue_number ->
  py_int env issue_number = Ok number ->
  gw_get_prs ghapi number = Raise x ->
  event_routes_dispatch env e ghapi = ([get_prs_call number], Raise x).
Proof.
  intros Hinit Hpay Hsome Hnum Hint Hfail.
  rewrite (dispatch_initiating env e ghapi Hinit).
  enter_protocol Hpay. rewrite Hsome. cbn [negb].
  unfold first_pr_number in Hnum.
  rewrite Hnum, bind_lift_ok, Hint, bind_lift_ok, Hfail. reflexivity.
Qed.

(** X18.  When the changed files cannot be had (the gateway fails, its
    answer is no sequence, or an entry has no textual [filename]), the
    handler ends with that exception after the two queries: the check
    run is neither modified nor handed to the scheduler. *)
Theorem unusable_file_list_surfaces (e : Event) (ghapi : Gateway)
    (check_run_number head_sha prs issue_number pr : json) (number : Z)
    (x : exn) :
  initiating_event env e ->
  check_run_payload e check_run_number head_sha prs ->
  truthy prs = true ->
  first_pr_number prs issue_number ->
  pr_lookup env ghapi issue_number number pr ->
  truthy pr = true ->
  (let? files := gw_get_pr_modified_files ghapi issue_number in
   let? items := py_iter files in recipes_of items) = Raise x ->
  event_routes_dispatch env e ghapi
  = ([get_prs_call number; get_pr_modified_files_call issue_number], Raise x).
Proof.
  intros Hinit Hpay Hsome Hnum (Hint & Hpr) Htruthy Hbad.
  rewrite (dispatch_initiating env e ghapi Hinit).
  enter_protocol Hpay. rewrite Hsome. cbn [negb].
  unfold first_pr_number in Hnum.
  rewrite Hnum, bind_lift_ok, Hint, bind_lift_ok, Hpr, bind_call_ok.
  rewrite Htruthy. cbn [negb fst snd].
  destruct (gw_get_pr_modified_files ghapi issue_number) as [files | y];
    cbn [res_bind] in Hbad.
  - rewrite bind_call_ok, Hbad, bind_lift_raise. reflexivity.
  - rewrite bind_call_raise. cbn. congruence.
Qed.

(** X19.  The recipe filter succeeds exactly when every entry of the
    changed-files list has a textual [filename]. *)
Theorem recipes_of_succeeds_iff (items : list json) :
  (exists recipes, recipes_of items = Ok recipes) <->
  Forall (fun item => exists fn, has_filename item fn) items.
Proof.
  induction items as [|item items IH]; cbn [recipes_of].
  - split; [constructor | now exists []].
  - split.
    + intros [recipes H].
      destruct (getitem item "filename") as [[| | |s| |]|y] eqn:Hfn;
        cbn [res_bind] in H; try discriminate.
      destruct (recipes_of items) as [rs | y] eqn:Hrs;
        cbn [res_bind] in H; try discriminate.
      constructor; [now exists s | apply IH; now exists rs].
    + intros H. inversion H as [|? ? [fn Hfn] Hrest]; subst.
      apply IH in Hrest as [rs Hrs]. unfold has_filename in Hfn.
      rewrite Hfn. cbn [res_bind]. rewrite Hrs. cbn [res_bind].
      eexists; reflexivity.
Qed.

(** X20.  When recipes were changed but the pull request lacks its head
    user, repository or branch, or the event its installation id (a
    pull request from a deleted fork answers [null] for the repository),
    the handler ends with the exception of that lookup after the two
    queries: nothing is scheduled and the check run is not modified. *)
Theorem incomplete_pr_head_surfaces (e : Event) (ghapi : Gateway)
    (check_run_number head_sha prs issue_number pr : json) (number : Z)
    (filenames : list string) (x : exn) :
  initiating_event env e ->
  check_run_payload e check_run_number head_sha prs ->
  truthy prs = true ->
  first_pr_number prs issue_number ->
  pr_lookup env ghapi issue_number number pr ->
  truthy pr = true ->
  changed_files ghapi issue_number filenames ->
  Exists (fun f => is_manifest f = true) filenames ->
  (let? _user := getpath pr ["head"; "user"; "login"] in
   let? _repo := getpath pr ["head"; "repo"; "name"] in
   let? _ref := getpath pr ["head"; "ref"] in
   Event_get e "installation/id") = Raise x ->
  event_routes_dispatch env e ghapi
  = ([get_prs_call number; get_pr_modified_files_call issue_number], Raise x).
Proof.
  intros Hinit Hpay Hsome Hnum Hpr Htruthy Hfiles Hex Hbad.
  rewrite (dispatch_initiating env e ghapi Hinit).
  rewrite (initiate_with_files env e ghapi _ _ _ _ _ _ _
             Hpay Hsome Hnum Hpr Htruthy Hfiles).
  destruct (filter is_manifest filenames) as [|r rs] eqn:Hfilter.
  - apply Exists_exists in Hex as (f & Hin & Hf).
    assert (Hf0 : In f (filter is_manifest filenames)) by now apply filter_In.
    rewrite Hfilter in Hf0. destruct Hf0.
  - destruct (getpath pr ["head"; "user"; "login"]) as [user | y];
      cbn [res_bind] in Hbad;
      [rewrite bind_lift_ok | rewrite bind_lift_raise; cbn; congruence].
    destruct (getpath pr ["head"; "repo"; "name"]) as [repo | y];
      cbn [res_bind] in Hbad;
      [rewrite bind_lift_ok | rewrite bind_lift_raise; cbn; congruence].
    destruct (getpath pr ["head"; "ref"]) as [ref | y];
      cbn [res_bind] in Hbad;
      [rewrite bind_lift_ok | rewrite bind_lift_raise; cbn; congruence].
    rewrite Hbad, bind_lift_raise. reflexivity.
Qed.

(** X21.  When recipes are handed to the scheduler, the scheduler's
    answer is how the handler ends: a scheduling failure is raised to
    the caller, not dropped. *)
Theorem scheduling_outcome_surfaces (e : Event) (ghapi : Gateway)
    (check_run_number head_sha prs issue_number pr : json) (number : Z)
    (filenames : list string) (user repo ref installation : json) :
  initiating_event env e ->
  check_run_payload e check_run_number head_sha prs ->
  truthy prs = true ->
  first_pr_number prs issue_number ->
  pr_lookup env ghapi issue_number number pr ->
  truthy pr = true ->
  changed_files ghapi issue_number filenames ->
  Exists (fun f => is_manifest f = true) filenames ->
  pr_head pr user repo ref ->
  Event_get e "installation/id" = Ok installation ->
  outcome (event_routes_dispatch env e ghapi)
  = lint_check_schedule env
      (mkPRInfo installation user repo ref
                (filter is_manifest filenames) issue_number)
      head_sha check_run_number ghapi.
Proof.
  intros Hinit Hpay Hsome Hnum Hpr Htruthy Hfiles Hex (Hu & Hr & Hf) Hinst.
  rewrite (dispatch_initiating env e ghapi Hinit).
  rewrite (initiate_with_files env e ghapi _ _ _ _ _ _ _
             Hpay Hsome Hnum Hpr Htruthy Hfiles).
  destruct (filter is_manifest filenames) as [|r rs] eqn:Hfilter.
  - apply Exists_exists in Hex as (f & Hin & Hf').
    assert (Hf0 : In f (filter is_manifest filenames)) by now apply filter_In.
    rewrite Hfilter in Hf0. destruct Hf0.
  - rewrite Hu, Hr, Hf, Hinst, !bind_lift_ok. reflexivity.
Qed.

End Initiation.

(** ** The further properties at sample deliveries *)

Lemma creation_uses_suite_head_sha_witness :
  event_routes_dispatch (accepting_env 1)
    (check_suite_event "rerequested" [sample_pr_ref])
    (sample_gateway JNull JNull)
  = ([create_check_run_call "Linting Recipe(s)" (JStr "abc123")], Ok tt).
Proof.
  apply (creation_uses_suite_head_sha (accepting_env 1)
           (check_suite_event "rerequested" [sample_pr_ref])
           (sample_gateway JNull JNull) (JStr "abc123")).
  - left. repeat split. right. reflexivity.
  - reflexivity.
Defined.

Lemma creation_falls_back_to_run_head_sha_witness :
  event_routes_dispatch (accepting_env 1)
    (check_run_event "rerequested" 1 []) failing_gateway
  = ([create_check_run_call "Linting Recipe(s)" (JStr "abc123")],
     Raise ApiError).
Proof.
  apply (creation_falls_back_to_run_head_sha (accepting_env 1)
           (check_run_event "rerequested" 1 []) failing_gateway
           (JStr "abc123") KeyError).
  - right. repeat split. exists (JInt 1). split; reflexivity.
  - reflexivity.
  - reflexivity.
Defined.

Lemma creation_without_head_sha_raises_witness :
  event_routes_dispatch (accepting_env 1) headless_suite_event
    (sample_gateway JNull JNull)
  = ([], Raise KeyError).
Proof.
  apply (creation_without_head_sha_raises (accepting_env 1)
           headless_suite_event (sample_gateway JNull JNull)
           KeyError KeyError).
  - left. repeat split. left. reflexivity.
  - reflexivity.
  - reflexivity.
Defined.

Lemma check_run_acts_only_on_own_requests_witness :
  passes_guard (accepting_env 1) (check_run_event "created" 1 [])
  /\ (Event_get (check_run_event "created" 1 []) "action"
      = Ok (JStr "rerequested") \/
      Event_get (check_run_event "created" 1 []) "action"
      = Ok (JStr "created")).
Proof.
  apply (check_run_acts_only_on_own_requests (accepting_env 1)
           (check_run_event "created" 1 []) (sample_gateway JNull JNull)).
  - reflexivity.
  - vm_compute. discriminate.
Defined.

Lemma modify_always_completes_witness :
  Event_get (check_run_event "created" 1 []) "check_run/id" = Ok (JInt 42)
  /\ kwarg_get "status" no_prs_kwargs = Some (KwStatus completed)
  /\ (kwarg_get "conclusion" no_prs_kwargs = Some (KwConclusion neutral) \/
      kwarg_get "conclusion" no_prs_kwargs = Some (KwConclusion success))
  /\ exists title, kwarg_get "output_title" no_prs_kwargs = Some (KwStr title).
Proof.
  apply (modify_always_completes (accepting_env 1)
           (check_run_event "created" 1 []) (sample_gateway JNull JNull)
           (JInt 42) no_prs_kwargs).
  left. reflexivity.
Defined.

Lemma no_prs_completes_neutral_witness :
  event_routes_dispatch (accepting_env 1) (check_run_event "created" 1 [])
    failing_gateway
  = ([modify_check_run_call (JInt 42) no_prs_kwargs], Raise ApiError).
Proof.
  apply (no_prs_completes_neutral (accepting_env 1)
           (check_run_event "created" 1 []) failing_gateway
           (JInt 42) (JStr "abc123") (JList [])).
  - repeat split. exists (JInt 1). split; reflexivity.
  - repeat split.
  - reflexivity.
Defined.

Lemma no_recipes_completes_success_witness :
  event_routes_dispatch (accepting_env 1)
    (check_run_event "created" 1 [sample_pr_ref])
    (sample_gateway sample_pr other_files)
  = ([get_prs_call 5; get_pr_modified_files_call (JInt 5);
      modify_check_run_call (JInt 42) no_recipes_kwargs], Ok tt).
Proof.
  apply (no_recipes_completes_success (accepting_env 1)
           (check_run_event "created" 1 [sample_pr_ref])
           (sample_gateway sample_pr other_files)
           (JInt 42) (JStr "abc123") (JList [sample_pr_ref]) (JInt 5)
           sample_pr 5 ["recipes/foo/build.sh"; "README.md"]).
  - repeat split. exists (JInt 1). split; reflexivity.
  - repeat split.
  - reflexivity.
  - reflexivity.
  - split; reflexivity.
  - reflexivity.
  - exists other_files, [file_item "recipes/foo/build.sh"; file_item "README.md"].
    repeat split. repeat constructor.
  - repeat constructor.
Defined.

Lemma incomplete_payload_raises_witness :
  event_routes_dispatch (accepting_env 1) (nameless_run_event 1)
    (sample_gateway sample_pr sample_files)
  = ([], Raise KeyError).
Proof.
  apply (incomplete_payload_raises (accepting_env 1) (nameless_run_event 1)
           (sample_gateway sample_pr sample_files) KeyError).
  - repeat split. exists (JInt 1). split; reflexivity.
  - left. reflexivity.
Defined.

Lemma unreadable_pr_number_raises_witness :
  event_routes_dispatch (accepting_env 1)
    (check_run_event "created" 1 [JObj [("id", JInt 5)]])
    (sample_gateway sample_pr sample_files)
  = ([], Raise KeyError).
Proof.
  apply (unreadable_pr_number_raises (accepting_env 1)
           (check_run_event "created" 1 [JObj [("id", JInt 5)]])
           (sample_gateway sample_pr sample_files)
           (JInt 42) (JStr "abc123") (JList [JObj [("id", JInt 5)]]) KeyError).
  - repeat split. exists (JInt 1). split; reflexivity.
  - repeat split.
  - reflexivity.
  - reflexivity.
Defined.

Lemma failed_pr_lookup_surfaces_witness :
  event_routes_dispatch (accepting_env 1)
    (check_run_event "created" 1 [sample_pr_ref]) failing_gateway
  = ([get_prs_call 5], Raise ApiError).
Proof.
  apply (failed_pr_lookup_surfaces (accepting_env 1)
           (check_run_event "created" 1 [sample_pr_ref]) failing_gateway
           (JInt 42) (JStr "abc123") (JList [sample_pr_ref]) (JInt 5) 5 ApiError).
  - repeat split. exists (JInt 1). split; reflexivity.
  - repeat split.
  - reflexivity.
  - reflexivity.
  - reflexivity.
  - reflexivity.
Defined.

Lemma unusable_file_list_surfaces_witness :
  event_routes_dispatch (accepting_env 1)
    (check_run_event "created" 1 [sample_pr_ref])
    (sample_gateway sample_pr (JList [JObj [("sha", JStr "0a1b")]]))
  = ([get_prs_call 5; get_pr_modified_files_call (JInt 5)], Raise KeyError).
Proof.
  apply (unusable_file_list_surfaces (accepting_env 1)
           (check_run_event "created" 1 [sample_pr_ref])
           (sample_gateway sample_pr (JList [JObj [("sha", JStr "0a1b")]]))
           (JInt 42) (JStr "abc123") (JList [sample_pr_ref]) (JInt 5)
           sample_pr 5 KeyError).
  - repeat split. exists (JInt 1). split; reflexivity.
  - repeat split.
  - reflexivity.
  - reflexivity.
  - split; reflexivity.
  - reflexivity.
  - reflexivity.
Defined.

Lemma incomplete_pr_head_surfaces_witness :
  event_routes_dispatch (accepting_env 1)
    (check_run_event "created" 1 [sample_pr_ref])
    (sample_gateway orphan_pr sample_files)
  = ([get_prs_call 5; get_pr_modified_files_call (JInt 5)], Raise TypeError).
Proof.
  apply (incomplete_pr_head_surfaces (accepting_env 1)
           (check_run_event "created" 1 [sample_pr_ref])
           (sample_gateway orphan_pr sample_files)
           (JInt 42) (JStr "abc123") (JList [sample_pr_ref]) (JInt 5)
           orphan_pr 5 ["recipes/foo/meta.yaml"; "recipes/foo/build.sh"]
           TypeError).
  - repeat split. exists (JInt 1). split; reflexivity.
  - repeat split.
  - reflexivity.
  - reflexivity.
  - split; reflexivity.
  - reflexivity.
  - exists sample_files, [file_item "recipes/foo/meta.yaml";
                          file_item "recipes/foo/build.sh"].
    repeat split. repeat constructor.
  - left. reflexivity.
  - reflexivity.
Defined.

Lemma scheduling_outcome_surfaces_witness :
  outcome (event_routes_dispatch (accepting_env 1)
             (check_run_event "created" 1 [sample_pr_ref])
             (sample_gateway sample_pr sample_files))
  = Ok tt.
Proof.
  apply (scheduling_outcome_surfaces (accepting_env 1)
           (check_run_event "created" 1 [sample_pr_ref])
           (sample_gateway sample_pr sample_files)
           (JInt 42) (JStr "abc123") (JList [sample_pr_ref]) (JInt 5)
           sample_pr 5
           ["recipes/foo/meta.yaml"; "recipes/foo/build.sh"]
           (JStr "alice") (JStr "bioconda-recipes") (JStr "add-foo") (JInt 7)).
  - repeat split. exists (JInt 1). split; reflexivity.
  - repeat split.
  - reflexivity.
  - reflexivity.
  - split; reflexivity.
  - reflexivity.
  - exists sample_files, [file_item "recipes/foo/meta.yaml";
                          file_item "recipes/foo/build.sh"].
    repeat split. repeat constructor.
  - left. reflexivity.
  - repeat split.
  - reflexivity.
Defined.
